(** * chart.c: the chart model and the assembly of the chart XML document

    A shallow embedding of [src/chart.c] of libxlsxwriter.  The C functions
    are transcribed one by one and keep their names.  What [chart.c] takes
    from elsewhere comes first: the C allocator, the macros and the writer
    primitives of [xmlwriter.h], [lxw_strdup], and the structures of
    [chart.h].  Then come the functions of [chart.c], the shape of the
    document they write, and the properties of the two. *)

From Stdlib Require Import ZArith List String Lia Bool PeanoNat.
Import ListNotations.

Set Warnings "-register-all".

Local Open Scope string_scope.
Local Open Scope list_scope.
Local Open Scope Z_scope.

(* ================================================================== *)
(** ** Machine integers *)

(** Unsigned C integers are [Z] values; a conversion to [uint16_t] or
    [uint32_t] and the result of unsigned arithmetic wrap around. *)
Definition uint16 (z : Z) : Z := z mod 2 ^ 16.
Definition uint32 (z : Z) : Z := z mod 2 ^ 32.

(* ================================================================== *)
(** ** The C runtime: allocator and standard error *)

Definition block := nat.

(** A nullable pointer that owns what it points to: [None] is [NULL],
    [Some (b, v)] is the address of block [b], which holds [v].  Nothing in
    [chart.c] aliases a block, so the content travels with the pointer. *)
Definition ptr (A : Type) : Type := option (block * A).

Definition ptr_block {A : Type} (p : ptr A) : option block :=
  match p with
  | None => None
  | Some (b, _) => Some b
  end.

Definition ptr_val {A : Type} (p : ptr A) : option A :=
  match p with
  | None => None
  | Some (_, v) => Some v
  end.

(** What goes to standard error. *)
Inductive diagnostic : Type :=
| Warning (message : string).

(** [next_block] is the next fresh address, [live] the blocks allocated and
    not yet released, [released] the blocks passed to [free], oldest first.
    [outcomes] decides the coming allocation requests, one entry a request:
    [false] makes the request fail; once the list is used up every request
    succeeds. *)
Record runtime : Type := mkRuntime {
  next_block : block;
  live : list block;
  released : list block;
  outcomes : list bool;
  stderr : list diagnostic
}.

(** [calloc(1, size)] and [malloc(size)]: a fresh block or [NULL]. *)
Definition calloc (rt : runtime) : option block * runtime :=
  match outcomes rt with
  | false :: rest =>
      (None, mkRuntime (next_block rt) (live rt) (released rt) rest (stderr rt))
  | _ =>
      (Some (next_block rt),
       mkRuntime (S (next_block rt)) (next_block rt :: live rt) (released rt)
                 (tl (outcomes rt)) (stderr rt))
  end.

(** [free(p)]: nothing happens on [NULL]. *)
Definition free (p : option block) (rt : runtime) : runtime :=
  match p with
  | None => rt
  | Some b =>
      mkRuntime (next_block rt) (remove Nat.eq_dec b (live rt))
                (released rt ++ [b]) (outcomes rt) (stderr rt)
  end.

(** Modelled from the spec: the macro [LXW_WARN] of [common.h] is not part
    of [chart.c]; it reports its message and does nothing else. *)
Definition LXW_WARN (message : string) (rt : runtime) : runtime :=
  mkRuntime (next_block rt) (live rt) (released rt) (outcomes rt)
            (stderr rt ++ [Warning message]).

(** Modelled from the spec: [lxw_strdup] of [utility.h] is not part of
    [chart.c]; it duplicates a string into an owned buffer and, like every
    allocation, may fail.  A [NULL] argument gives [NULL] without any
    request to the allocator. *)
Definition lxw_strdup (str : ptr string) (rt : runtime) : ptr string * runtime :=
  match str with
  | None => (None, rt)
  | Some (_, s) =>
      match calloc rt with
      | (Some b, rt') => (Some (b, s), rt')
      | (None, rt') => (None, rt')
      end
  end.

(* ================================================================== *)
(** ** The writer primitives of xmlwriter.h *)

(** An attribute value is pushed either as a string
    ([LXW_PUSH_ATTRIBUTES_STR]) or as an integer ([LXW_PUSH_ATTRIBUTES_INT]). *)
Inductive xml_attribute_value : Type :=
| AttrStr (s : string)
| AttrInt (z : Z).

Definition xml_attribute : Type := (string * xml_attribute_value)%type.
Definition xml_attribute_list : Type := list xml_attribute.

(** Modelled from the spec: the attribute macros of [xmlwriter.h] are not
    part of [chart.c]; they collect the names and values of the attributes
    of one tag in the order of the pushes, and every push succeeds. *)
Definition LXW_INIT_ATTRIBUTES : xml_attribute_list := [].

Definition LXW_PUSH_ATTRIBUTES_STR
  (attributes : xml_attribute_list) (key value : string) : xml_attribute_list :=
  attributes ++ [(key, AttrStr value)].

Definition LXW_PUSH_ATTRIBUTES_INT
  (attributes : xml_attribute_list) (key : string) (value : Z) : xml_attribute_list :=
  attributes ++ [(key, AttrInt value)].

(** Modelled from the spec: the writer primitives of [xmlwriter.h] are not
    part of [chart.c]; each opens a tag, closes a tag, or writes an empty
    tag or a tag around a text, and always succeeds.  The sink is the
    sequence of the calls made on it.  The attribute argument is a pointer:
    [None] where the C passes [NULL]. *)
Inductive xml_write : Type :=
| XmlDeclaration
| StartTag (tag : string) (attributes : option xml_attribute_list)
| EndTag (tag : string)
| EmptyTag (tag : string) (attributes : option xml_attribute_list)
| DataElement (tag : string) (data : option string)
              (attributes : option xml_attribute_list).

(* ================================================================== *)
(** ** The structures of chart.h *)

(** Modelled from the spec: [chart.h] is not part of [chart.c].  A series
    owns its range and its sheet name; these are the fields [chart.c]
    reads and writes. *)
Record lxw_series_range : Type := mk_series_range {
  range : ptr string;
  sheetname : ptr string
}.

Record lxw_chart_series : Type := mk_chart_series {
  values : lxw_series_range
}.

(** The [STAILQ] of series nodes, head first; every node with its block. *)
Definition lxw_chart_series_list : Type := list (block * lxw_chart_series).

(** Modelled from the spec: the chart of [chart.h], with its id, its two
    axis ids, its series counter and its series list.  [file] is what has
    been written to [self->file].  [id], [axis_id_1] and [axis_id_2] are
    32 bit wide and [series_index] is 16 bit wide, the widths of the locals
    and parameters [chart.c] moves them through. *)
Record lxw_chart : Type := mk_chart {
  file : list xml_write;
  id : Z;
  axis_id_1 : Z;
  axis_id_2 : Z;
  series_index : Z;
  series : ptr lxw_chart_series_list
}.

(** The content of a block that [calloc] has just returned. *)
Definition zeroed_chart : lxw_chart :=
  mk_chart [] 0 0 0 0 None.

Definition set_file (c : lxw_chart) (f : list xml_write) : lxw_chart :=
  mk_chart f (id c) (axis_id_1 c) (axis_id_2 c) (series_index c) (series c).

Definition set_axis_id_1 (c : lxw_chart) (a : Z) : lxw_chart :=
  mk_chart (file c) (id c) a (axis_id_2 c) (series_index c) (series c).

Definition set_axis_id_2 (c : lxw_chart) (a : Z) : lxw_chart :=
  mk_chart (file c) (id c) (axis_id_1 c) a (series_index c) (series c).

Definition set_series_index (c : lxw_chart) (i : Z) : lxw_chart :=
  mk_chart (file c) (id c) (axis_id_1 c) (axis_id_2 c) i (series c).

Definition set_series (c : lxw_chart) (s : ptr lxw_chart_series_list) : lxw_chart :=
  mk_chart (file c) (id c) (axis_id_1 c) (axis_id_2 c) (series_index c) s.

Definition set_id (c : lxw_chart) (i : Z) : lxw_chart :=
  mk_chart (file c) i (axis_id_1 c) (axis_id_2 c) (series_index c) (series c).

(* ================================================================== *)
(** ** Private functions: creation and release *)

(** The loop of [lxw_chart_free]: take the head node off the list and
    release its two strings, until the list is empty. *)
Fixpoint free_series_loop (l : lxw_chart_series_list) (rt : runtime) : runtime :=
  match l with
  | [] => rt
  | (_, s) :: rest =>
      let rt := free (ptr_block (range (values s))) rt in
      let rt := free (ptr_block (sheetname (values s))) rt in
      free_series_loop rest rt
  end.

Definition lxw_chart_free (chart : ptr lxw_chart) (rt : runtime) : runtime :=
  match chart with
  | None => rt
  | Some (cb, c) =>
      let rt :=
        match series c with
        | Some (lb, l) => free (Some lb) (free_series_loop l rt)
        | None => rt
        end in
      free (Some cb) rt
  end.

(** [GOTO_LABEL_ON_MEM_ERROR] is the jump to [mem_error] on a [NULL]
    pointer. *)
Definition lxw_chart_new (rt : runtime) : ptr lxw_chart * runtime :=
  match calloc rt with
  | (None, rt) => (None, lxw_chart_free None rt)
  | (Some cb, rt) =>
      let chart := zeroed_chart in
      match calloc rt with
      | (None, rt) => (None, lxw_chart_free (Some (cb, chart)) rt)
      | (Some lb, rt) =>
          (* STAILQ_INIT *)
          (Some (cb, set_series chart (Some (lb, []))), rt)
      end
  end.

(* ================================================================== *)
(** ** XML functions *)

(** The XML functions work on [self]: they read and update its fields and
    write to [self->file].  A function stops without a result ([None])
    when it reads through a [NULL] pointer. *)
Definition chart_fn (A : Type) : Type := lxw_chart -> option (A * lxw_chart).

Definition ret {A : Type} (a : A) : chart_fn A :=
  fun self => Some (a, self).

Definition bind {A B : Type} (m : chart_fn A) (k : A -> chart_fn B) : chart_fn B :=
  fun self =>
    match m self with
    | Some (a, self') => k a self'
    | None => None
    end.

Declare Scope chart_scope.
Delimit Scope chart_scope with chart.
Notation "x <- m ;; k" := (bind m (fun x => k))
  (at level 100, m at next level, right associativity) : chart_scope.
Notation "m ;; k" := (bind m (fun _ => k))
  (at level 100, right associativity) : chart_scope.
Local Open Scope chart_scope.

Definition get {A : Type} (field : lxw_chart -> A) : chart_fn A :=
  fun self => Some (field self, self).

Definition put (update : lxw_chart -> lxw_chart) : chart_fn unit :=
  fun self => Some (tt, update self).

(** Read through a pointer field. *)
Definition deref {A : Type} (field : lxw_chart -> ptr A) : chart_fn A :=
  fun self =>
    match field self with
    | Some (_, v) => Some (v, self)
    | None => None
    end.

(** One call of a primitive on [self->file]. *)
Definition fwrite (w : xml_write) : chart_fn unit :=
  put (fun self => set_file self (file self ++ [w])).

Definition lxw_xml_declaration : chart_fn unit :=
  fwrite XmlDeclaration.

Definition lxw_xml_start_tag (tag : string) (attributes : option xml_attribute_list)
  : chart_fn unit :=
  fwrite (StartTag tag attributes).

Definition lxw_xml_end_tag (tag : string) : chart_fn unit :=
  fwrite (EndTag tag).

Definition lxw_xml_empty_tag (tag : string) (attributes : option xml_attribute_list)
  : chart_fn unit :=
  fwrite (EmptyTag tag attributes).

Definition lxw_xml_data_element (tag : string) (data : option string)
  (attributes : option xml_attribute_list) : chart_fn unit :=
  fwrite (DataElement tag data attributes).

(** [STAILQ_FOREACH]: the body once for every node, head first. *)
Fixpoint STAILQ_FOREACH {A : Type} (l : list A) (body : A -> chart_fn unit)
  : chart_fn unit :=
  match l with
  | [] => ret tt
  | x :: rest => body x ;; STAILQ_FOREACH rest body
  end.

Definition _chart_xml_declaration : chart_fn unit :=
  lxw_xml_declaration.

Definition _chart_write_chart_space : chart_fn unit :=
  let xmlns_c := "http://schemas.openxmlformats.org/drawingml/2006/chart" in
  let xmlns_a := "http://schemas.openxmlformats.org/drawingml/2006/main" in
  let xmlns_r :=
    "http://schemas.openxmlformats.org/officeDocument/2006/relationships" in
  let attributes := LXW_INIT_ATTRIBUTES in
  let attributes := LXW_PUSH_ATTRIBUTES_STR attributes "xmlns:c" xmlns_c in
  let attributes := LXW_PUSH_ATTRIBUTES_STR attributes "xmlns:a" xmlns_a in
  let attributes := LXW_PUSH_ATTRIBUTES_STR attributes "xmlns:r" xmlns_r in
  lxw_xml_start_tag "c:chartSpace" (Some attributes).

Definition _chart_write_lang : chart_fn unit :=
  let attributes := LXW_INIT_ATTRIBUTES in
  let attributes := LXW_PUSH_ATTRIBUTES_STR attributes "val" "en-US" in
  lxw_xml_empty_tag "c:lang" (Some attributes).

Definition _chart_write_layout : chart_fn unit :=
  lxw_xml_empty_tag "c:layout" None.

Definition _chart_write_grouping : chart_fn unit :=
  let val := "clustered" in
  let attributes := LXW_INIT_ATTRIBUTES in
  let attributes := LXW_PUSH_ATTRIBUTES_STR attributes "val" val in
  lxw_xml_empty_tag "c:grouping" (Some attributes).

Definition _chart_write_idx (index : Z) : chart_fn unit :=
  let attributes := LXW_INIT_ATTRIBUTES in
  let attributes := LXW_PUSH_ATTRIBUTES_INT attributes "val" index in
  lxw_xml_empty_tag "c:idx" (Some attributes).

Definition _chart_write_order (index : Z) : chart_fn unit :=
  let attributes := LXW_INIT_ATTRIBUTES in
  let attributes := LXW_PUSH_ATTRIBUTES_INT attributes "val" index in
  lxw_xml_empty_tag "c:order" (Some attributes).

Definition _chart_add_axis_ids : chart_fn unit :=
  self_id <- get id ;;
  let chart_id := uint32 (50010000 + self_id) in
  let axis_count := 1 in
  put (fun self => set_axis_id_1 self (uint32 (chart_id + axis_count))) ;;
  a1 <- get axis_id_1 ;;
  put (fun self => set_axis_id_2 self a1).

Definition _chart_write_axis_id (axis_id : Z) : chart_fn unit :=
  let attributes := LXW_INIT_ATTRIBUTES in
  let attributes := LXW_PUSH_ATTRIBUTES_INT attributes "val" axis_id in
  lxw_xml_empty_tag "c:axId" (Some attributes).

Definition _chart_write_axis_ids : chart_fn unit :=
  a1 <- get axis_id_1 ;;
  (if a1 =? 0 then _chart_add_axis_ids else ret tt) ;;
  a1 <- get axis_id_1 ;;
  _chart_write_axis_id a1 ;;
  a2 <- get axis_id_2 ;;
  _chart_write_axis_id a2.

Definition _chart_write_f (range : ptr string) : chart_fn unit :=
  lxw_xml_data_element "c:f" (ptr_val range) None.

Definition _chart_write_num_ref (range : ptr string) : chart_fn unit :=
  lxw_xml_start_tag "c:numRef" None ;;
  _chart_write_f range ;;
  lxw_xml_end_tag "c:numRef".

Definition _chart_write_val (series : lxw_chart_series) : chart_fn unit :=
  lxw_xml_start_tag "c:val" None ;;
  _chart_write_num_ref (range (values series)) ;;
  lxw_xml_end_tag "c:val".

(** [uint16_t index = self->series_index++;] *)
Definition _chart_write_ser (series : lxw_chart_series) : chart_fn unit :=
  old <- get series_index ;;
  put (fun self => set_series_index self (uint16 (old + 1))) ;;
  let index := uint16 old in
  lxw_xml_start_tag "c:ser" None ;;
  _chart_write_idx index ;;
  _chart_write_order index ;;
  _chart_write_val series ;;
  lxw_xml_end_tag "c:ser".

Definition _chart_write_orientation : chart_fn unit :=
  let val := "minMax" in
  let attributes := LXW_INIT_ATTRIBUTES in
  let attributes := LXW_PUSH_ATTRIBUTES_STR attributes "val" val in
  lxw_xml_empty_tag "c:orientation" (Some attributes).

Definition _chart_write_scaling : chart_fn unit :=
  lxw_xml_start_tag "c:scaling" None ;;
  _chart_write_orientation ;;
  lxw_xml_end_tag "c:scaling".

Definition _chart_write_axis_pos (position : string) : chart_fn unit :=
  let attributes := LXW_INIT_ATTRIBUTES in
  let attributes := LXW_PUSH_ATTRIBUTES_STR attributes "val" position in
  lxw_xml_empty_tag "c:axPos" (Some attributes).

Definition _chart_write_tick_lbl_pos : chart_fn unit :=
  let val := "nextTo" in
  let attributes := LXW_INIT_ATTRIBUTES in
  let attributes := LXW_PUSH_ATTRIBUTES_STR attributes "val" val in
  lxw_xml_empty_tag "c:tickLblPos" (Some attributes).

Definition _chart_write_cross_axis (axis_id : Z) : chart_fn unit :=
  let attributes := LXW_INIT_ATTRIBUTES in
  let attributes := LXW_PUSH_ATTRIBUTES_INT attributes "val" axis_id in
  lxw_xml_empty_tag "c:crossAx" (Some attributes).

Definition _chart_write_crosses : chart_fn unit :=
  let val := "autoZero" in
  let attributes := LXW_INIT_ATTRIBUTES in
  let attributes := LXW_PUSH_ATTRIBUTES_STR attributes "val" val in
  lxw_xml_empty_tag "c:crosses" (Some attributes).

Definition _chart_write_auto : chart_fn unit :=
  let val := "1" in
  let attributes := LXW_INIT_ATTRIBUTES in
  let attributes := LXW_PUSH_ATTRIBUTES_STR attributes "val" val in
  lxw_xml_empty_tag "c:auto" (Some attributes).

Definition _chart_write_lbl_algn : chart_fn unit :=
  let val := "ctr" in
  let attributes := LXW_INIT_ATTRIBUTES in
  let attributes := LXW_PUSH_ATTRIBUTES_STR attributes "val" val in
  lxw_xml_empty_tag "c:lblAlgn" (Some attributes).

Definition _chart_write_lbl_offset : chart_fn unit :=
  let val := "100" in
  let attributes := LXW_INIT_ATTRIBUTES in
  let attributes := LXW_PUSH_ATTRIBUTES_STR attributes "val" val in
  lxw_xml_empty_tag "c:lblOffset" (Some attributes).

Definition _chart_write_major_gridlines : chart_fn unit :=
  lxw_xml_empty_tag "c:majorGridlines" None.

Definition _chart_write_num_fmt : chart_fn unit :=
  let format_code := "General" in
  let source_linked := "1" in
  let attributes := LXW_INIT_ATTRIBUTES in
  let attributes := LXW_PUSH_ATTRIBUTES_STR attributes "formatCode" format_code in
  let attributes := LXW_PUSH_ATTRIBUTES_STR attributes "sourceLinked" source_linked in
  lxw_xml_empty_tag "c:numFmt" (Some attributes).

Definition _chart_write_cross_between : chart_fn unit :=
  let val := "between" in
  let attributes := LXW_INIT_ATTRIBUTES in
  let attributes := LXW_PUSH_ATTRIBUTES_STR attributes "val" val in
  lxw_xml_empty_tag "c:crossBetween" (Some attributes).

Definition _chart_write_legend_pos : chart_fn unit :=
  let val := "r" in
  let attributes := LXW_INIT_ATTRIBUTES in
  let attributes := LXW_PUSH_ATTRIBUTES_STR attributes "val" val in
  lxw_xml_empty_tag "c:legendPos" (Some attributes).

Definition _chart_write_legend : chart_fn unit :=
  lxw_xml_start_tag "c:legend" None ;;
  _chart_write_legend_pos ;;
  _chart_write_layout ;;
  lxw_xml_end_tag "c:legend".

Definition _chart_write_plot_vis_only : chart_fn unit :=
  let val := "1" in
  let attributes := LXW_INIT_ATTRIBUTES in
  let attributes := LXW_PUSH_ATTRIBUTES_STR attributes "val" val in
  lxw_xml_empty_tag "c:plotVisOnly" (Some attributes).

Definition _chart_write_header_footer : chart_fn unit :=
  lxw_xml_empty_tag "c:headerFooter" None.

Definition _chart_write_page_margins : chart_fn unit :=
  let b := "0.75" in
  let l := "0.7" in
  let r := "0.7" in
  let t := "0.75" in
  let header := "0.3" in
  let footer := "0.3" in
  let attributes := LXW_INIT_ATTRIBUTES in
  let attributes := LXW_PUSH_ATTRIBUTES_STR attributes "b" b in
  let attributes := LXW_PUSH_ATTRIBUTES_STR attributes "l" l in
  let attributes := LXW_PUSH_ATTRIBUTES_STR attributes "r" r in
  let attributes := LXW_PUSH_ATTRIBUTES_STR attributes "t" t in
  let attributes := LXW_PUSH_ATTRIBUTES_STR attributes "header" header in
  let attributes := LXW_PUSH_ATTRIBUTES_STR attributes "footer" footer in
  lxw_xml_empty_tag "c:pageMargins" (Some attributes).

Definition _chart_write_page_setup : chart_fn unit :=
  lxw_xml_empty_tag "c:pageSetup" None.

Definition _chart_write_print_settings : chart_fn unit :=
  lxw_xml_start_tag "c:printSettings" None ;;
  _chart_write_header_footer ;;
  _chart_write_page_margins ;;
  _chart_write_page_setup ;;
  lxw_xml_end_tag "c:printSettings".

Definition _chart_write_cat_axis : chart_fn unit :=
  lxw_xml_start_tag "c:catAx" None ;;
  a1 <- get axis_id_1 ;;
  _chart_write_axis_id a1 ;;
  _chart_write_scaling ;;
  _chart_write_axis_pos "l" ;;
  _chart_write_tick_lbl_pos ;;
  a2 <- get axis_id_2 ;;
  _chart_write_cross_axis a2 ;;
  _chart_write_crosses ;;
  _chart_write_auto ;;
  _chart_write_lbl_algn ;;
  _chart_write_lbl_offset ;;
  lxw_xml_end_tag "c:catAx".

Definition _chart_write_val_ax : chart_fn unit :=
  lxw_xml_start_tag "c:valAx" None ;;
  a2 <- get axis_id_2 ;;
  _chart_write_axis_id a2 ;;
  _chart_write_scaling ;;
  _chart_write_axis_pos "b" ;;
  _chart_write_major_gridlines ;;
  _chart_write_num_fmt ;;
  _chart_write_tick_lbl_pos ;;
  a1 <- get axis_id_1 ;;
  _chart_write_cross_axis a1 ;;
  _chart_write_crosses ;;
  _chart_write_cross_between ;;
  lxw_xml_end_tag "c:valAx".

Definition _chart_write_bar_dir : chart_fn unit :=
  let attributes := LXW_INIT_ATTRIBUTES in
  let attributes := LXW_PUSH_ATTRIBUTES_STR attributes "val" "bar" in
  lxw_xml_empty_tag "c:barDir" (Some attributes).

Definition _chart_write_bar_chart : chart_fn unit :=
  lxw_xml_start_tag "c:barChart" None ;;
  _chart_write_bar_dir ;;
  _chart_write_grouping ;;
  nodes <- deref series ;;
  STAILQ_FOREACH nodes (fun node => _chart_write_ser (snd node)) ;;
  _chart_write_axis_ids ;;
  lxw_xml_end_tag "c:barChart".

Definition _chart_write_chart_type : chart_fn unit :=
  _chart_write_bar_chart.

(** The plot area is opened here and closed by [_chart_write_chart]. *)
Definition _chart_write_plot_area : chart_fn unit :=
  lxw_xml_start_tag "c:plotArea" None ;;
  _chart_write_layout ;;
  _chart_write_chart_type.

Definition _chart_write_chart : chart_fn unit :=
  lxw_xml_start_tag "c:chart" None ;;
  _chart_write_plot_area ;;
  _chart_write_cat_axis ;;
  _chart_write_val_ax ;;
  lxw_xml_end_tag "c:plotArea" ;;
  _chart_write_legend ;;
  _chart_write_plot_vis_only ;;
  lxw_xml_end_tag "c:chart".

Definition lxw_chart_assemble_xml_file : chart_fn unit :=
  _chart_xml_declaration ;;
  _chart_write_chart_space ;;
  _chart_write_lang ;;
  _chart_write_chart ;;
  _chart_write_print_settings ;;
  lxw_xml_end_tag "c:chartSpace".

(* ================================================================== *)
(** ** Public functions *)

(** [RETURN_ON_MEM_ERROR] is the return of the error code on a [NULL]
    pointer.  The result is [None] when the node is linked through a
    [NULL] list pointer. *)
Definition chart_add_series (self : lxw_chart) (user_series : ptr lxw_chart_series)
  (rt : runtime) : option (Z * lxw_chart * runtime) :=
  match user_series with
  | None =>
      let rt := LXW_WARN "chart_add_series(): series must be non-NULL" rt in
      Some (-1, self, rt)
  | Some (_, user) =>
      match calloc rt with
      | (None, rt) => Some (-1, self, rt)
      | (Some node, rt) =>
          (* memcpy *)
          let new_series := user in
          let (copy, rt) := lxw_strdup (range (values user)) rt in
          let new_series :=
            mk_chart_series (mk_series_range copy (sheetname (values new_series))) in
          let (copy, rt) := lxw_strdup (sheetname (values user)) rt in
          let new_series :=
            mk_chart_series (mk_series_range (range (values new_series)) copy) in
          (* STAILQ_INSERT_TAIL *)
          match series self with
          | None => None
          | Some (head, nodes) =>
              Some (0, set_series self (Some (head, nodes ++ [(node, new_series)])), rt)
          end
      end
  end.

(* ================================================================== *)
(** ** Callers *)

(** A caller that adds the descriptors one after the other and keeps the
    return codes. *)
Fixpoint add_each_series (self : lxw_chart) (descriptors : list (ptr lxw_chart_series))
  (rt : runtime) : option (list Z * lxw_chart * runtime) :=
  match descriptors with
  | [] => Some ([], self, rt)
  | user_series :: rest =>
      match chart_add_series self user_series rt with
      | None => None
      | Some (code, self, rt) =>
          match add_each_series self rest rt with
          | None => None
          | Some (codes, self, rt) => Some (code :: codes, self, rt)
          end
      end
  end.

(** No allocation request that is still to come fails. *)
Definition no_failure (rt : runtime) : bool :=
  forallb (fun outcome : bool => outcome) (outcomes rt).

(** The runtime after a request that was granted. *)
Definition granted (rt : runtime) : runtime :=
  mkRuntime (S (next_block rt)) (next_block rt :: live rt) (released rt)
            (tl (outcomes rt)) (stderr rt).

(** The two strings a series holds, whatever blocks hold them. *)
Definition strings_of (s : lxw_chart_series) : option string * option string :=
  (ptr_val (range (values s)), ptr_val (sheetname (values s))).

(** The blocks of the two strings of a series, those that are not [NULL]. *)
Definition string_blocks (s : lxw_chart_series) : list block :=
  match ptr_block (range (values s)) with Some b => [b] | None => [] end
  ++ match ptr_block (sheetname (values s)) with Some b => [b] | None => [] end.

(** A runtime with an empty heap in which every request succeeds.  The
    addresses below 3 are the caller's own objects, outside the heap. *)
Definition quiet_runtime : runtime := mkRuntime 3%nat [] [] [] [].

(** The descriptor of the series [Sheet1!$A$1:$A$3], a caller's object. *)
Definition series_A : ptr lxw_chart_series :=
  Some (0%nat, mk_chart_series
                 (mk_series_range (Some (1%nat, "Sheet1!$A$1:$A$3"))
                                  (Some (2%nat, "Sheet1")))).

(** A new chart of [quiet_runtime], before and after [series_A] is added:
    the chart is block 3, its list block 4, the node block 5 and the two
    copies blocks 6 and 7. *)
Definition chart_0 : lxw_chart :=
  mk_chart [] 0 0 0 0 (Some (4%nat, [])).

Definition nodes_A : lxw_chart_series_list :=
  [ (5%nat, mk_chart_series
              (mk_series_range (Some (6%nat, "Sheet1!$A$1:$A$3"))
                               (Some (7%nat, "Sheet1")))) ].

Definition chart_A : lxw_chart :=
  mk_chart [] 0 0 0 0 (Some (4%nat, nodes_A)).

(** The chart with id 1 and the two series [Sheet1!$A$1:$A$3] and
    [Sheet1!$B$1:$B$3]. *)
Definition nodes_AB : lxw_chart_series_list :=
  nodes_A
  ++ [ (8%nat, mk_chart_series
                 (mk_series_range (Some (9%nat, "Sheet1!$B$1:$B$3"))
                                  (Some (10%nat, "Sheet1")))) ].

Definition chart_AB : lxw_chart :=
  mk_chart [] 1 0 0 0 (Some (4%nat, nodes_AB)).

(** The runtime once [chart_0] is built, and once [chart_A] is. *)
Definition runtime_0 : runtime := mkRuntime 5%nat [4; 3]%nat [] [] [].

Definition runtime_A : runtime := mkRuntime 8%nat [7; 6; 5; 4; 3]%nat [] [] [].

(** As [runtime_0], but the second of the coming requests fails. *)
Definition runtime_strdup_fails : runtime :=
  mkRuntime 5%nat [4; 3]%nat [] [true; false; true] [].

(* ================================================================== *)
(** ** The document, as the assembly writes it *)

Arguments uint16 : simpl never.
Arguments uint32 : simpl never.

(** The [<c:ser>] block numbered [index] around the reference [f]. *)
Definition ser_block (index : Z) (f : option string) : list xml_write :=
  [ StartTag "c:ser" None;
    EmptyTag "c:idx" (Some [("val", AttrInt index)]);
    EmptyTag "c:order" (Some [("val", AttrInt index)]);
    StartTag "c:val" None;
    StartTag "c:numRef" None;
    DataElement "c:f" f None;
    EndTag "c:numRef";
    EndTag "c:val";
    EndTag "c:ser" ].

(** The blocks of the series of a list, in list order, when the counter
    holds [counter] on entry to the loop. *)
Fixpoint series_blocks (counter : Z) (l : lxw_chart_series_list)
  : list (list xml_write) :=
  match l with
  | [] => []
  | node :: rest =>
      ser_block (uint16 counter) (ptr_val (range (values (snd node))))
        :: series_blocks (uint16 (counter + 1)) rest
  end.

(** The counter when the loop is left. *)
Fixpoint counter_after (counter : Z) (l : lxw_chart_series_list) : Z :=
  match l with
  | [] => counter
  | _ :: rest => counter_after (uint16 (counter + 1)) rest
  end.

(** The axis ids a chart holds once [_chart_write_axis_ids] has run. *)
Definition axis_ids_of (c : lxw_chart) : Z * Z :=
  if axis_id_1 c =? 0 then
    let a := uint32 (uint32 (50010000 + id c) + 1) in (a, a)
  else (axis_id_1 c, axis_id_2 c).

Definition document_head : list xml_write :=
  [ XmlDeclaration;
    StartTag "c:chartSpace"
      (Some [ ("xmlns:c", AttrStr "http://schemas.openxmlformats.org/drawingml/2006/chart");
              ("xmlns:a", AttrStr "http://schemas.openxmlformats.org/drawingml/2006/main");
              ("xmlns:r", AttrStr "http://schemas.openxmlformats.org/officeDocument/2006/relationships") ]);
    EmptyTag "c:lang" (Some [("val", AttrStr "en-US")]);
    StartTag "c:chart" None;
    StartTag "c:plotArea" None;
    EmptyTag "c:layout" None;
    StartTag "c:barChart" None;
    EmptyTag "c:barDir" (Some [("val", AttrStr "bar")]);
    EmptyTag "c:grouping" (Some [("val", AttrStr "clustered")]) ].

Definition cat_axis_block (a1 a2 : Z) : list xml_write :=
  [ StartTag "c:catAx" None;
    EmptyTag "c:axId" (Some [("val", AttrInt a1)]);
    StartTag "c:scaling" None;
    EmptyTag "c:orientation" (Some [("val", AttrStr "minMax")]);
    EndTag "c:scaling";
    EmptyTag "c:axPos" (Some [("val", AttrStr "l")]);
    EmptyTag "c:tickLblPos" (Some [("val", AttrStr "nextTo")]);
    EmptyTag "c:crossAx" (Some [("val", AttrInt a2)]);
    EmptyTag "c:crosses" (Some [("val", AttrStr "autoZero")]);
    EmptyTag "c:auto" (Some [("val", AttrStr "1")]);
    EmptyTag "c:lblAlgn" (Some [("val", AttrStr "ctr")]);
    EmptyTag "c:lblOffset" (Some [("val", AttrStr "100")]);
    EndTag "c:catAx" ].

Definition val_axis_block (a1 a2 : Z) : list xml_write :=
  [ StartTag "c:valAx" None;
    EmptyTag "c:axId" (Some [("val", AttrInt a2)]);
    StartTag "c:scaling" None;
    EmptyTag "c:orientation" (Some [("val", AttrStr "minMax")]);
    EndTag "c:scaling";
    EmptyTag "c:axPos" (Some [("val", AttrStr "b")]);
    EmptyTag "c:majorGridlines" None;
    EmptyTag "c:numFmt"
      (Some [("formatCode", AttrStr "General"); ("sourceLinked", AttrStr "1")]);
    EmptyTag "c:tickLblPos" (Some [("val", AttrStr "nextTo")]);
    EmptyTag "c:crossAx" (Some [("val", AttrInt a1)]);
    EmptyTag "c:crosses" (Some [("val", AttrStr "autoZero")]);
    EmptyTag "c:crossBetween" (Some [("val", AttrStr "between")]);
    EndTag "c:valAx" ].

Definition document_tail (a1 a2 : Z) : list xml_write :=
  [ EmptyTag "c:axId" (Some [("val", AttrInt a1)]);
    EmptyTag "c:axId" (Some [("val", AttrInt a2)]);
    EndTag "c:barChart" ]
  ++ cat_axis_block a1 a2
  ++ val_axis_block a1 a2
  ++ [ EndTag "c:plotArea";
       StartTag "c:legend" None;
       EmptyTag "c:legendPos" (Some [("val", AttrStr "r")]);
       EmptyTag "c:layout" None;
       EndTag "c:legend";
       EmptyTag "c:plotVisOnly" (Some [("val", AttrStr "1")]);
       EndTag "c:chart";
       StartTag "c:printSettings" None;
       EmptyTag "c:headerFooter" None;
       EmptyTag "c:pageMargins"
         (Some [ ("b", AttrStr "0.75"); ("l", AttrStr "0.7"); ("r", AttrStr "0.7");
                 ("t", AttrStr "0.75"); ("header", AttrStr "0.3");
                 ("footer", AttrStr "0.3") ]);
       EmptyTag "c:pageSetup" None;
       EndTag "c:printSettings";
       EndTag "c:chartSpace" ].

(** Everything one pass writes for the chart [c] whose list is [l]. *)
Definition document (c : lxw_chart) (l : lxw_chart_series_list) : list xml_write :=
  document_head
    ++ List.concat (series_blocks (series_index c) l)
    ++ document_tail (fst (axis_ids_of c)) (snd (axis_ids_of c)).

(** The chart [c] after [out] went to its file, with new axis ids and a
    new counter. *)
Definition updated (c : lxw_chart) (out : list xml_write)
  (a1 a2 counter : Z) : lxw_chart :=
  mk_chart (file c ++ out) (id c) a1 a2 counter (series c).

(** The chart a pass leaves behind. *)
Definition assembled (c : lxw_chart) (l : lxw_chart_series_list) : lxw_chart :=
  updated c (document c l) (fst (axis_ids_of c)) (snd (axis_ids_of c))
          (counter_after (series_index c) l).

(** What went to the file between two states of a chart. *)
Definition written (before after : lxw_chart) : list xml_write :=
  skipn (List.length (file before)) (file after).

(* ================================================================== *)
(** ** Reading a document back *)

(** What follows the first start tag [tag]. *)
Fixpoint after_start (tag : string) (doc : list xml_write) : list xml_write :=
  match doc with
  | [] => []
  | StartTag t _ :: rest => if String.eqb t tag then rest else after_start tag rest
  | _ :: rest => after_start tag rest
  end.

(** What comes before the first end tag [tag]. *)
Fixpoint before_end (tag : string) (doc : list xml_write) : list xml_write :=
  match doc with
  | [] => []
  | EndTag t :: rest => if String.eqb t tag then [] else EndTag t :: before_end tag rest
  | w :: rest => w :: before_end tag rest
  end.

(** The content of the first element [tag] of a document. *)
Definition element_content (tag : string) (doc : list xml_write) : list xml_write :=
  before_end tag (after_start tag doc).

Fixpoint attribute_value (key : string) (attributes : xml_attribute_list)
  : option xml_attribute_value :=
  match attributes with
  | [] => None
  | (k, v) :: rest => if String.eqb k key then Some v else attribute_value key rest
  end.

(** The [val] attribute of the first empty element [tag]. *)
Fixpoint val_of (tag : string) (doc : list xml_write) : option xml_attribute_value :=
  match doc with
  | [] => None
  | EmptyTag t (Some attributes) :: rest =>
      if String.eqb t tag then attribute_value "val" attributes else val_of tag rest
  | _ :: rest => val_of tag rest
  end.

(** An axis id occurs in [<c:axId>] and in [<c:crossAx>]. *)
Definition axis_reference (w : xml_write) : list (option xml_attribute_value) :=
  match w with
  | EmptyTag t (Some attributes) =>
      if String.eqb t "c:axId" || String.eqb t "c:crossAx"
      then [attribute_value "val" attributes] else []
  | _ => []
  end.

(** Every axis id of a document, in document order. *)
Definition axis_references (doc : list xml_write) : list (option xml_attribute_value) :=
  flat_map axis_reference doc.

(* ================================================================== *)
(** ** The schema of the document *)

(** A document as a tree: the nesting the schema asks for. *)
Inductive xml_node : Type :=
| Element (tag : string) (attributes : option xml_attribute_list)
          (children : list xml_node)
| EmptyElement (tag : string) (attributes : option xml_attribute_list)
| TextElement (tag : string) (data : option string).

(** The calls that write a tree, parents around their children, siblings
    left to right. *)
Fixpoint flatten (n : xml_node) : list xml_write :=
  match n with
  | Element tag attributes children =>
      StartTag tag attributes :: flat_map flatten children ++ [EndTag tag]
  | EmptyElement tag attributes => [EmptyTag tag attributes]
  | TextElement tag data => [DataElement tag data None]
  end.

Definition str_val (tag value : string) : xml_node :=
  EmptyElement tag (Some [("val", AttrStr value)]).

Definition int_val (tag : string) (value : Z) : xml_node :=
  EmptyElement tag (Some [("val", AttrInt value)]).

(** A series block: index, order (the same value) and the value reference
    around the range. *)
Definition schema_series (index : Z) (f : option string) : xml_node :=
  Element "c:ser" None
    [ int_val "c:idx" index;
      int_val "c:order" index;
      Element "c:val" None [ Element "c:numRef" None [ TextElement "c:f" f ] ] ].

(** The series blocks in insertion order, numbered from [counter]. *)
Fixpoint schema_all_series (counter : Z) (l : lxw_chart_series_list) : list xml_node :=
  match l with
  | [] => []
  | node :: rest =>
      schema_series (uint16 counter) (ptr_val (range (values (snd node))))
        :: schema_all_series (counter + 1) rest
  end.

Definition schema_scaling : xml_node :=
  Element "c:scaling" None [ str_val "c:orientation" "minMax" ].

Definition schema_bar_chart (counter a1 a2 : Z) (l : lxw_chart_series_list) : xml_node :=
  Element "c:barChart" None
    ([ str_val "c:barDir" "bar"; str_val "c:grouping" "clustered" ]
     ++ schema_all_series counter l
     ++ [ int_val "c:axId" a1; int_val "c:axId" a2 ]).

Definition schema_cat_axis (a1 a2 : Z) : xml_node :=
  Element "c:catAx" None
    [ int_val "c:axId" a1;
      schema_scaling;
      str_val "c:axPos" "l";
      str_val "c:tickLblPos" "nextTo";
      int_val "c:crossAx" a2;
      str_val "c:crosses" "autoZero";
      str_val "c:auto" "1";
      str_val "c:lblAlgn" "ctr";
      str_val "c:lblOffset" "100" ].

Definition schema_val_axis (a1 a2 : Z) : xml_node :=
  Element "c:valAx" None
    [ int_val "c:axId" a2;
      schema_scaling;
      str_val "c:axPos" "b";
      EmptyElement "c:majorGridlines" None;
      EmptyElement "c:numFmt"
        (Some [("formatCode", AttrStr "General"); ("sourceLinked", AttrStr "1")]);
      str_val "c:tickLblPos" "nextTo";
      int_val "c:crossAx" a1;
      str_val "c:crosses" "autoZero";
      str_val "c:crossBetween" "between" ].

Definition schema_plot_area (counter a1 a2 : Z) (l : lxw_chart_series_list) : xml_node :=
  Element "c:plotArea" None
    [ EmptyElement "c:layout" None;
      schema_bar_chart counter a1 a2 l;
      schema_cat_axis a1 a2;
      schema_val_axis a1 a2 ].

Definition schema_legend : xml_node :=
  Element "c:legend" None
    [ str_val "c:legendPos" "r"; EmptyElement "c:layout" None ].

Definition schema_chart (counter a1 a2 : Z) (l : lxw_chart_series_list) : xml_node :=
  Element "c:chart" None
    [ schema_plot_area counter a1 a2 l;
      schema_legend;
      str_val "c:plotVisOnly" "1" ].

Definition schema_print_settings : xml_node :=
  Element "c:printSettings" None
    [ EmptyElement "c:headerFooter" None;
      EmptyElement "c:pageMargins"
        (Some [ ("b", AttrStr "0.75"); ("l", AttrStr "0.7"); ("r", AttrStr "0.7");
                ("t", AttrStr "0.75"); ("header", AttrStr "0.3");
                ("footer", AttrStr "0.3") ]);
      EmptyElement "c:pageSetup" None ].

Definition schema_chart_space (counter a1 a2 : Z) (l : lxw_chart_series_list) : xml_node :=
  Element "c:chartSpace"
    (Some [ ("xmlns:c", AttrStr "http://schemas.openxmlformats.org/drawingml/2006/chart");
            ("xmlns:a", AttrStr "http://schemas.openxmlformats.org/drawingml/2006/main");
            ("xmlns:r", AttrStr "http://schemas.openxmlformats.org/officeDocument/2006/relationships") ])
    [ str_val "c:lang" "en-US";
      schema_chart counter a1 a2 l;
      schema_print_settings ].

(** The XML declaration, then the root container. *)
Definition schema_document (counter a1 a2 : Z) (l : lxw_chart_series_list)
  : list xml_write :=
  XmlDeclaration :: flatten (schema_chart_space counter a1 a2 l).

(* ================================================================== *)
(** ** Further readings of a document and of the runtime *)

(** The tags still open after [doc], innermost first, when [open] were
    open before it; [None] when an end tag does not close the innermost
    open tag. *)
Fixpoint nesting (open : list string) (doc : list xml_write) : option (list string) :=
  match doc with
  | [] => Some open
  | StartTag t _ :: rest => nesting (t :: open) rest
  | EndTag t :: rest =>
      match open with
      | top :: below => if String.eqb top t then nesting below rest else None
      | [] => None
      end
  | _ :: rest => nesting open rest
  end.

Definition vals_of (tag : string) (w : xml_write) : list (option xml_attribute_value) :=
  match w with
  | EmptyTag t (Some attributes) =>
      if String.eqb t tag then [attribute_value "val" attributes] else []
  | _ => []
  end.

(** The [val] attribute of every empty element [tag], in document order. *)
Definition all_vals (tag : string) (doc : list xml_write)
  : list (option xml_attribute_value) :=
  flat_map (vals_of tag) doc.

Definition data_of (tag : string) (w : xml_write) : list (option string) :=
  match w with
  | DataElement t data _ => if String.eqb t tag then [data] else []
  | _ => []
  end.

(** The text of every data element [tag], in document order. *)
Definition all_data (tag : string) (doc : list xml_write) : list (option string) :=
  flat_map (data_of tag) doc.

(** The range a node refers to. *)
Definition range_of (node : block * lxw_chart_series) : option string :=
  ptr_val (range (values (snd node))).

(** The nodes of a chart; none when the list pointer is [NULL]. *)
Definition nodes_of (c : lxw_chart) : lxw_chart_series_list :=
  match series c with
  | Some (_, l) => l
  | None => []
  end.

(** [k] passes in a row over the same chart. *)
Fixpoint assemble_times (k : nat) : chart_fn unit :=
  match k with
  | O => ret tt
  | S k' => lxw_chart_assemble_xml_file ;; assemble_times k'
  end.

(** Every allocated block lies below the next fresh address. *)
Definition heap_ok (rt : runtime) : Prop :=
  Forall (fun b => (b < next_block rt)%nat) (live rt).

(** What [lxw_chart_free] passes to [free] for a chart in block [cb] with
    the list [l] in block [lb]. *)
Definition freed_blocks (cb lb : block) (l : lxw_chart_series_list) : list block :=
  flat_map (fun node => string_blocks (snd node)) l ++ [lb; cb].

(** A runtime with three allocated blocks in which the first request is
    granted and the second fails. *)
Definition runtime_second_fails : runtime :=
  mkRuntime 3%nat [2; 1; 0]%nat [] [true; false] [].

(** A chart like [chart_A] whose series lies in other blocks and names
    another sheet. *)
Definition nodes_A_moved : lxw_chart_series_list :=
  [ (21%nat, mk_chart_series
               (mk_series_range (Some (22%nat, "Sheet1!$A$1:$A$3"))
                                (Some (23%nat, "Data")))) ].

Definition chart_A_moved : lxw_chart :=
  mk_chart [] 0 0 0 0 (Some (20%nat, nodes_A_moved)).

(* ================================================================== *)
(** ** The run of the assembly *)

Ltac chart_eval :=
  cbv - [app uint16 uint32 Z.add Z.eqb series_blocks counter_after List.concat
         axis_ids_of STAILQ_FOREACH _chart_write_ser _chart_write_axis_ids
         _chart_write_bar_chart _chart_write_cat_axis _chart_write_val_ax fst snd].

Ltac run_straight_line :=
  cbv - [app uint16 uint32 Z.add Z.eqb];
  rewrite <- ?app_assoc; try reflexivity.

Lemma ser_run (s : lxw_chart_series) (c : lxw_chart) :
  _chart_write_ser s c
  = Some (tt, updated c (ser_block (uint16 (series_index c)) (ptr_val (range (values s))))
                      (axis_id_1 c) (axis_id_2 c) (uint16 (series_index c + 1))).
Proof. destruct c. run_straight_line. Qed.

Lemma foreach_ser_run (l : lxw_chart_series_list) :
  forall c : lxw_chart,
    STAILQ_FOREACH l (fun node => _chart_write_ser (snd node)) c
    = Some (tt, updated c (List.concat (series_blocks (series_index c) l))
                        (axis_id_1 c) (axis_id_2 c)
                        (counter_after (series_index c) l)).
Proof.
  induction l as [| node rest IH]; intros c; cbn [STAILQ_FOREACH].
  - destruct c; unfold updated; cbn. now rewrite app_nil_r.
  - unfold bind. rewrite ser_run, IH. destruct c; unfold updated; cbn.
    rewrite <- !app_assoc. reflexivity.
Qed.

Lemma add_axis_ids_run (c : lxw_chart) :
  _chart_add_axis_ids c
  = Some (tt, updated c [] (uint32 (uint32 (50010000 + id c) + 1))
                      (uint32 (uint32 (50010000 + id c) + 1)) (series_index c)).
Proof. destruct c. run_straight_line. now rewrite app_nil_r. Qed.

Lemma axis_ids_run (c : lxw_chart) :
  _chart_write_axis_ids c
  = Some (tt, updated c [ EmptyTag "c:axId" (Some [("val", AttrInt (fst (axis_ids_of c)))]);
                          EmptyTag "c:axId" (Some [("val", AttrInt (snd (axis_ids_of c)))]) ]
                      (fst (axis_ids_of c)) (snd (axis_ids_of c)) (series_index c)).
Proof.
  destruct c as [f i a1 a2 si s].
  unfold _chart_write_axis_ids, axis_ids_of, bind, get; cbn [axis_id_1 axis_id_2 id].
  destruct (a1 =? 0); run_straight_line.
Qed.

Lemma bar_chart_run (c : lxw_chart) (head : block) (l : lxw_chart_series_list) :
  series c = Some (head, l) ->
  _chart_write_bar_chart c
  = Some (tt, updated c
       ([ StartTag "c:barChart" None;
          EmptyTag "c:barDir" (Some [("val", AttrStr "bar")]);
          EmptyTag "c:grouping" (Some [("val", AttrStr "clustered")]) ]
        ++ List.concat (series_blocks (series_index c) l)
        ++ [ EmptyTag "c:axId" (Some [("val", AttrInt (fst (axis_ids_of c)))]);
             EmptyTag "c:axId" (Some [("val", AttrInt (snd (axis_ids_of c)))]);
             EndTag "c:barChart" ])
       (fst (axis_ids_of c)) (snd (axis_ids_of c))
       (counter_after (series_index c) l)).
Proof.
  intros Hs. unfold _chart_write_bar_chart.
  destruct c as [f i a1 a2 si s]; cbn in Hs; subst s.
  chart_eval. rewrite foreach_ser_run.
  chart_eval. rewrite axis_ids_run.
  chart_eval. rewrite <- !app_assoc. reflexivity.
Qed.

(** A chart without a series list cannot be assembled. *)
Lemma bar_chart_null_list (c : lxw_chart) :
  series c = None -> _chart_write_bar_chart c = None.
Proof. destruct c as [f i a1 a2 si s]; cbn [series]; intros ->. reflexivity. Qed.

Lemma cat_axis_run (c : lxw_chart) :
  _chart_write_cat_axis c
  = Some (tt, updated c (cat_axis_block (axis_id_1 c) (axis_id_2 c))
                      (axis_id_1 c) (axis_id_2 c) (series_index c)).
Proof. destruct c. run_straight_line. Qed.

Lemma val_ax_run (c : lxw_chart) :
  _chart_write_val_ax c
  = Some (tt, updated c (val_axis_block (axis_id_1 c) (axis_id_2 c))
                      (axis_id_1 c) (axis_id_2 c) (series_index c)).
Proof. destruct c. run_straight_line. Qed.

Lemma assemble_run (c : lxw_chart) (head : block) (l : lxw_chart_series_list) :
  series c = Some (head, l) ->
  lxw_chart_assemble_xml_file c = Some (tt, assembled c l).
Proof.
  intros Hs.
  unfold lxw_chart_assemble_xml_file, _chart_write_chart, _chart_write_plot_area,
    _chart_write_chart_type.
  destruct c as [f i a1 a2 si s]; cbn in Hs; subst s.
  chart_eval. erewrite bar_chart_run by reflexivity.
  chart_eval. rewrite cat_axis_run.
  chart_eval. rewrite val_ax_run.
  unfold assembled, document, document_tail, updated.
  chart_eval. rewrite <- !app_assoc. reflexivity.
Qed.

Lemma written_updated (c : lxw_chart) (out : list xml_write) (a1 a2 counter : Z) :
  written c (updated c out a1 a2 counter) = out.
Proof.
  unfold written, updated; cbn [file].
  rewrite skipn_app, skipn_all, Nat.sub_diag. reflexivity.
Qed.

Lemma written_assembled (c : lxw_chart) (l : lxw_chart_series_list) :
  written c (assembled c l) = document c l.
Proof. apply written_updated. Qed.

(* ================================================================== *)
(** ** The counter and the numbering of the blocks *)

Lemma uint16_succ (z : Z) : uint16 (uint16 z + 1) = uint16 (z + 1).
Proof. unfold uint16. apply Zplus_mod_idemp_l. Qed.

Lemma uint16_idem (z : Z) : uint16 (uint16 z) = uint16 z.
Proof. unfold uint16. apply Zmod_mod. Qed.

Lemma uint16_small (z : Z) : 0 <= z < 65536 -> uint16 z = z.
Proof. intros H. unfold uint16. apply Z.mod_small. lia. Qed.

Lemma series_blocks_length (l : lxw_chart_series_list) :
  forall counter, List.length (series_blocks counter l) = List.length l.
Proof.
  induction l as [| node rest IH]; intros counter; cbn; [reflexivity |].
  now rewrite IH.
Qed.

Lemma series_blocks_congr (l : lxw_chart_series_list) :
  forall counter counter',
    uint16 counter = uint16 counter' ->
    series_blocks counter l = series_blocks counter' l.
Proof.
  induction l as [| node rest IH]; intros counter counter' H; cbn; [reflexivity |].
  rewrite H. f_equal. apply IH.
  rewrite !uint16_idem, <- uint16_succ, H, uint16_succ. reflexivity.
Qed.

(** The block of the series at position [i] carries the counter's value on
    entry plus [i], cut to 16 bits. *)
Lemma series_blocks_nth (l : lxw_chart_series_list) :
  forall counter i node,
    nth_error l i = Some node ->
    nth_error (series_blocks counter l) i
    = Some (ser_block (uint16 (counter + Z.of_nat i))
                      (ptr_val (range (values (snd node))))).
Proof.
  induction l as [| n rest IH]; intros counter i node H.
  - destruct i; discriminate.
  - destruct i as [| i]; cbn in H |- *.
    + injection H as ->. now rewrite Z.add_0_r.
    + rewrite (IH _ _ _ H). do 2 f_equal.
      unfold uint16. rewrite Zplus_mod_idemp_l.
      f_equal. lia.
Qed.

Lemma counter_after_closed (l : lxw_chart_series_list) :
  forall counter,
    l <> [] ->
    counter_after counter l = uint16 (counter + Z.of_nat (List.length l)).
Proof.
  induction l as [| n rest IH]; intros counter H; [congruence |].
  cbn [counter_after]. destruct rest as [| n' rest'].
  - reflexivity.
  - rewrite IH by discriminate.
    unfold uint16. rewrite Zplus_mod_idemp_l. f_equal.
    cbn [List.length]. lia.
Qed.

(* ================================================================== *)
(** ** The document against the schema *)

Lemma flatten_all_series (l : lxw_chart_series_list) :
  forall counter,
    flat_map flatten (schema_all_series counter l)
    = List.concat (series_blocks counter l).
Proof.
  induction l as [| node rest IH]; intros counter; [reflexivity |].
  cbn [schema_all_series series_blocks flat_map List.concat].
  rewrite IH. f_equal.
  f_equal. apply series_blocks_congr. now rewrite uint16_idem.
Qed.

Lemma schema_document_flat (counter a1 a2 : Z) (l : lxw_chart_series_list) :
  schema_document counter a1 a2 l
  = document_head ++ List.concat (series_blocks counter l) ++ document_tail a1 a2.
Proof.
  unfold schema_document, schema_chart_space, schema_chart, schema_plot_area,
    schema_bar_chart.
  cbn [flatten flat_map app].
  rewrite !flat_map_app, flatten_all_series.
  cbn [flat_map flatten app int_val str_val schema_cat_axis schema_val_axis
       schema_scaling schema_legend schema_print_settings].
  unfold document_head, document_tail, cat_axis_block, val_axis_block.
  cbn [app]. rewrite <- !app_assoc. reflexivity.
Qed.

(* ================================================================== *)
(** ** Reading the assembled document back *)

Lemma after_start_series_blocks (tag : string) (rest : list xml_write)
  (l : lxw_chart_series_list) :
  String.eqb "c:ser" tag = false ->
  String.eqb "c:val" tag = false ->
  String.eqb "c:numRef" tag = false ->
  forall counter,
    after_start tag (List.concat (series_blocks counter l) ++ rest)
    = after_start tag rest.
Proof.
  intros H1 H2 H3.
  induction l as [| node more IH]; intros counter; [reflexivity |].
  cbn [series_blocks List.concat ser_block app after_start].
  rewrite H1, H2, H3. apply IH.
Qed.

Lemma axis_references_series_blocks (l : lxw_chart_series_list) :
  forall counter, axis_references (List.concat (series_blocks counter l)) = [].
Proof.
  unfold axis_references.
  induction l as [| node more IH]; intros counter; [reflexivity |].
  cbn [series_blocks List.concat]. rewrite flat_map_app, IH. reflexivity.
Qed.

Lemma axis_references_document (c : lxw_chart) (l : lxw_chart_series_list) :
  axis_references (document c l)
  = [ Some (AttrInt (fst (axis_ids_of c))); Some (AttrInt (snd (axis_ids_of c)));
      Some (AttrInt (fst (axis_ids_of c))); Some (AttrInt (snd (axis_ids_of c)));
      Some (AttrInt (snd (axis_ids_of c))); Some (AttrInt (fst (axis_ids_of c))) ].
Proof.
  unfold document, axis_references.
  rewrite !flat_map_app.
  fold (axis_references (List.concat (series_blocks (series_index c) l))).
  rewrite axis_references_series_blocks.
  reflexivity.
Qed.

Lemma cat_axis_of_document (c : lxw_chart) (l : lxw_chart_series_list) :
  element_content "c:catAx" (document c l)
  = removelast (tl (cat_axis_block (fst (axis_ids_of c)) (snd (axis_ids_of c)))).
Proof.
  unfold element_content, document.
  change (after_start "c:catAx" (document_head ++ ?r)) with (after_start "c:catAx" r).
  rewrite after_start_series_blocks by reflexivity.
  reflexivity.
Qed.

Lemma val_axis_of_document (c : lxw_chart) (l : lxw_chart_series_list) :
  element_content "c:valAx" (document c l)
  = removelast (tl (val_axis_block (fst (axis_ids_of c)) (snd (axis_ids_of c)))).
Proof.
  unfold element_content, document.
  change (after_start "c:valAx" (document_head ++ ?r)) with (after_start "c:valAx" r).
  rewrite after_start_series_blocks by reflexivity.
  reflexivity.
Qed.

(* ================================================================== *)
(** ** Allocation when no request fails *)

Lemma calloc_ok (rt : runtime) :
  no_failure rt = true ->
  calloc rt = (Some (next_block rt), granted rt)
  /\ no_failure (granted rt) = true.
Proof.
  unfold no_failure, calloc, granted.
  destruct (outcomes rt) as [| [|] rest]; cbn; intros H; try discriminate; auto.
Qed.

Lemma lxw_strdup_ok (str : ptr string) (rt : runtime) :
  no_failure rt = true ->
  exists copy rt',
    lxw_strdup str rt = (copy, rt')
    /\ ptr_val copy = ptr_val str
    /\ no_failure rt' = true.
Proof.
  intros H. destruct str as [[b s] |]; cbn [lxw_strdup].
  - destruct (calloc_ok rt H) as [-> H']. eauto.
  - eauto.
Qed.

Lemma set_series_twice (c : lxw_chart) (s s' : ptr lxw_chart_series_list) :
  set_series (set_series c s) s' = set_series c s'.
Proof. reflexivity. Qed.

Lemma chart_add_series_ok (self : lxw_chart) (head : block)
  (l : lxw_chart_series_list) (user : block * lxw_chart_series) (rt : runtime) :
  series self = Some (head, l) ->
  no_failure rt = true ->
  exists node rt',
    chart_add_series self (Some user) rt
    = Some (0, set_series self (Some (head, l ++ [node])), rt')
    /\ strings_of (snd node) = strings_of (snd user)
    /\ no_failure rt' = true.
Proof.
  intros Hs H. destruct user as [b user]. unfold chart_add_series.
  destruct (calloc_ok rt H) as [-> H1].
  destruct (lxw_strdup_ok (range (values user)) _ H1) as (r & rt1 & -> & Hr & H2).
  destruct (lxw_strdup_ok (sheetname (values user)) _ H2) as (n & rt2 & -> & Hn & H3).
  rewrite Hs. eexists (_, _), rt2. split; [reflexivity |].
  split; [| exact H3].
  unfold strings_of; cbn. now rewrite Hr, Hn.
Qed.

Lemma add_each_series_ok (users : list (block * lxw_chart_series)) :
  forall (self : lxw_chart) (head : block) (l : lxw_chart_series_list) (rt : runtime),
    series self = Some (head, l) ->
    no_failure rt = true ->
    exists l' rt',
      add_each_series self (map Some users) rt
      = Some (repeat 0 (List.length users), set_series self (Some (head, l ++ l')), rt')
      /\ map (fun node => strings_of (snd node)) l'
         = map (fun user => strings_of (snd user)) users
      /\ no_failure rt' = true.
Proof.
  induction users as [| user rest IH]; intros self head l rt Hs H.
  - exists [], rt. cbn. rewrite app_nil_r.
    destruct self; cbn in Hs; subst. auto.
  - cbn [map add_each_series].
    destruct (chart_add_series_ok self head l user rt Hs H) as (node & rt1 & -> & Hn & H1).
    destruct (IH (set_series self (Some (head, l ++ [node]))) head (l ++ [node]) rt1
                eq_refl H1) as (l' & rt2 & -> & Hl & H2).
    exists (node :: l'), rt2. rewrite set_series_twice, <- app_assoc.
    cbn. rewrite Hn, Hl. auto.
Qed.

Lemma lxw_chart_new_ok (rt : runtime) :
  no_failure rt = true ->
  exists cb lb rt',
    lxw_chart_new rt = (Some (cb, set_series zeroed_chart (Some (lb, []))), rt')
    /\ no_failure rt' = true.
Proof.
  intros H. unfold lxw_chart_new.
  destruct (calloc_ok rt H) as [-> H1].
  destruct (calloc_ok _ H1) as [-> H2].
  eauto.
Qed.

(* ================================================================== *)
(** ** Positions in a document *)

Lemma series_blocks_uniform (l : lxw_chart_series_list) :
  forall counter,
    Forall (fun b => List.length b = 9%nat) (series_blocks counter l).
Proof.
  induction l as [| node rest IH]; intros counter; cbn; constructor; auto.
Qed.

Lemma nth_error_concat_uniform {A : Type} (k : nat) (bs : list (list A)) :
  Forall (fun b => List.length b = k) bs ->
  forall (i j : nat) (b : list A),
    nth_error bs i = Some b ->
    (j < k)%nat ->
    nth_error (List.concat bs) (k * i + j) = nth_error b j.
Proof.
  induction 1 as [| a bs Ha Hbs IH]; intros i j b Hi Hj.
  - destruct i; discriminate.
  - destruct i as [| i]; cbn [nth_error List.concat] in *.
    + injection Hi as ->. rewrite Nat.mul_0_r, Nat.add_0_l.
      apply nth_error_app1. lia.
    + rewrite nth_error_app2 by lia.
      replace (k * S i + j - List.length a)%nat with (k * i + j)%nat by lia.
      now apply IH.
Qed.

(** The writes of the series block at position [k] sit at [9 + 9 * k] and
    after: nine writes come before the first block and every block has
    nine. *)
Lemma document_nth (c : lxw_chart) (l : lxw_chart_series_list) (k : nat)
  (node : block * lxw_chart_series) :
  nth_error l k = Some node ->
  forall (j : nat) (w : xml_write),
    (j < 9)%nat ->
    nth_error (ser_block (uint16 (series_index c + Z.of_nat k))
                         (ptr_val (range (values (snd node))))) j = Some w ->
    nth_error (document c l) (9 + (9 * k + j)) = Some w.
Proof.
  intros Hk j w Hj Hw. unfold document.
  assert (Hh : List.length document_head = 9%nat) by reflexivity.
  rewrite nth_error_app2 by lia.
  replace (9 + (9 * k + j) - List.length document_head)%nat
    with (9 * k + j)%nat by lia.
  assert (Hb := series_blocks_nth l (series_index c) k node Hk).
  assert (Hc := nth_error_concat_uniform 9 _
                  (series_blocks_uniform l (series_index c)) _ j _ Hb Hj).
  rewrite Hw in Hc.
  rewrite nth_error_app1; [exact Hc |].
  apply nth_error_Some. rewrite Hc. discriminate.
Qed.

(* ================================================================== *)
(** ** The example chart *)

Lemma chart_0_built :
  lxw_chart_new quiet_runtime = (Some (3%nat, chart_0), runtime_0).
Proof. reflexivity. Qed.

Lemma chart_A_built :
  chart_add_series chart_0 series_A runtime_0 = Some (0, chart_A, runtime_A).
Proof. reflexivity. Qed.

(** The chart with id 1 and two series, end to end: the two series blocks
    are numbered 0 and 1 around the two ranges, and both axes carry the id
    50010002. *)
Example chart_AB_document :
  exists c1,
    lxw_chart_assemble_xml_file chart_AB = Some (tt, c1)
    /\ file c1
       = document_head
           ++ ser_block 0 (Some "Sheet1!$A$1:$A$3")
           ++ ser_block 1 (Some "Sheet1!$B$1:$B$3")
           ++ document_tail 50010002 50010002
    /\ series_index c1 = 2.
Proof.
  exists (assembled chart_AB nodes_AB).
  split; [exact (assemble_run chart_AB 4%nat nodes_AB eq_refl) |].
  split; vm_compute; reflexivity.
Qed.

(* ================================================================== *)
(** ** Axis ids *)

Lemma axis_ids_stable (c c' : lxw_chart) :
  id c' = id c ->
  axis_id_1 c' = fst (axis_ids_of c) ->
  axis_id_2 c' = snd (axis_ids_of c) ->
  axis_ids_of c' = axis_ids_of c.
Proof.
  unfold axis_ids_of. intros Hi.
  destruct (axis_id_1 c =? 0) eqn:E; cbn [fst snd]; intros H1 H2.
  - destruct (axis_id_1 c' =? 0); rewrite ?Hi; [reflexivity |].
    now rewrite H1, H2.
  - rewrite H1, E. now rewrite H2.
Qed.

Lemma axis_ids_cached (c : lxw_chart) :
  axis_id_1 c <> 0 -> axis_ids_of c = (axis_id_1 c, axis_id_2 c).
Proof.
  intros H. unfold axis_ids_of.
  destruct (Z.eqb_spec (axis_id_1 c) 0); [contradiction | reflexivity].
Qed.

Lemma uint32_chain (z : Z) : uint32 (uint32 (50010000 + z) + 1) = uint32 (50010000 + z + 1).
Proof. unfold uint32. apply Zplus_mod_idemp_l. Qed.

(* ================================================================== *)
(** ** Claims about the assembly *)

(** C1, as the code has it: no pass resets the series counter.  A pass
    numbers the series blocks from the value the counter has on entry (cut
    to 16 bits) and leaves the counter advanced by the number of series, so
    a second pass goes on counting where the first one stopped.  Two passes
    over the same chart write the same document when the counter is put
    back to its entry value in between. *)
Theorem assembly_counts_on (c : lxw_chart) (head : block) (l : lxw_chart_series_list)
  (Hs : series c = Some (head, l)) :
  exists c1 c2 c2',
    lxw_chart_assemble_xml_file c = Some (tt, c1)
    /\ written c c1
       = document_head ++ List.concat (series_blocks (series_index c) l)
           ++ document_tail (axis_id_1 c1) (axis_id_2 c1)
    /\ (forall i node,
          nth_error l i = Some node ->
          nth_error (series_blocks (series_index c) l) i
          = Some (ser_block (uint16 (series_index c + Z.of_nat i))
                            (ptr_val (range (values (snd node))))))
    /\ series_index c1
       = match l with
         | [] => series_index c
         | _ :: _ => uint16 (series_index c + Z.of_nat (List.length l))
         end
    /\ lxw_chart_assemble_xml_file c1 = Some (tt, c2)
    /\ written c1 c2
       = document_head ++ List.concat (series_blocks (series_index c1) l)
           ++ document_tail (axis_id_1 c1) (axis_id_2 c1)
    /\ lxw_chart_assemble_xml_file (set_series_index c1 (series_index c)) = Some (tt, c2')
    /\ written (set_series_index c1 (series_index c)) c2' = written c c1.
Proof.
  assert (Hs1 : series (assembled c l) = Some (head, l)) by exact Hs.
  assert (Ha : axis_ids_of (assembled c l) = axis_ids_of c)
    by (apply axis_ids_stable; reflexivity).
  assert (Ha' : axis_ids_of (set_series_index (assembled c l) (series_index c))
                = axis_ids_of c)
    by (apply axis_ids_stable; reflexivity).
  exists (assembled c l), (assembled (assembled c l) l),
    (assembled (set_series_index (assembled c l) (series_index c)) l).
  split; [exact (assemble_run c head l Hs) |].
  split; [apply written_assembled |].
  split; [intros i node; apply series_blocks_nth |].
  split.
  { destruct l as [| node rest]; [reflexivity |].
    apply (counter_after_closed (node :: rest)). discriminate. }
  split; [exact (assemble_run _ head l Hs1) |].
  split; [rewrite written_assembled; unfold document; rewrite Ha; reflexivity |].
  split; [apply (assemble_run _ head l); exact Hs |].
  rewrite !written_assembled. unfold document. rewrite Ha'. reflexivity.
Qed.

(** The two passes over [chart_A]: the first leaves the counter at 1 and the
    second numbers from 1. *)
Lemma assembly_counts_on_witness :
  series chart_A = Some (4%nat, nodes_A)
  /\ exists c1 c2,
       lxw_chart_assemble_xml_file chart_A = Some (tt, c1)
       /\ nth_error (series_blocks (series_index chart_A) nodes_A) 0
          = Some (ser_block 0 (Some "Sheet1!$A$1:$A$3"))
       /\ series_index c1 = 1
       /\ lxw_chart_assemble_xml_file c1 = Some (tt, c2)
       /\ written c1 c2
          = document_head ++ List.concat (series_blocks 1 nodes_A)
              ++ document_tail (axis_id_1 c1) (axis_id_2 c1).
Proof.
  split; [reflexivity |].
  destruct (assembly_counts_on chart_A 4%nat nodes_A eq_refl)
    as (c1 & c2 & _ & H1 & _ & H3 & H4 & H5 & H6 & _).
  exists c1, c2.
  assert (E : series_index c1 = 1) by (rewrite H4; reflexivity).
  rewrite E in H6.
  split; [exact H1 |].
  split; [exact (H3 0%nat _ eq_refl) |].
  auto.
Defined.

(** C1, counterexample: the chart [chart_A], one series, is assembled
    twice in a row.  The counter is 1, not 0, when the second pass starts;
    the series block is numbered 0 by the first pass and 1 by the second,
    and the two documents differ. *)
Lemma reassembly_renumbers :
  exists c1 c2,
    lxw_chart_assemble_xml_file chart_A = Some (tt, c1)
    /\ lxw_chart_assemble_xml_file c1 = Some (tt, c2)
    /\ series_index c1 = 1
    /\ val_of "c:idx" (written chart_A c1) = Some (AttrInt 0)
    /\ val_of "c:idx" (written c1 c2) = Some (AttrInt 1)
    /\ written chart_A c1 <> written c1 c2.
Proof.
  exists (assembled chart_A nodes_A), (assembled (assembled chart_A nodes_A) nodes_A).
  split; [reflexivity |].
  split; [reflexivity |].
  split; [reflexivity |].
  split; [reflexivity |].
  split; [reflexivity |].
  vm_compute. discriminate.
Qed.

(** C2: one pass writes the XML declaration and then the tree of the
    schema, with its nesting, its sibling order and its literal values:
    the file grows by exactly [schema_document]. *)
Theorem assembly_follows_schema (c : lxw_chart) (head : block)
  (l : lxw_chart_series_list) (Hs : series c = Some (head, l)) :
  exists c1,
    lxw_chart_assemble_xml_file c = Some (tt, c1)
    /\ file c1
       = file c ++ schema_document (series_index c) (axis_id_1 c1) (axis_id_2 c1) l.
Proof.
  exists (assembled c l). split; [exact (assemble_run c head l Hs) |].
  rewrite schema_document_flat. reflexivity.
Qed.

(** The schema at [chart_A]. *)
Lemma assembly_follows_schema_witness :
  series chart_A = Some (4%nat, nodes_A)
  /\ exists c1,
       lxw_chart_assemble_xml_file chart_A = Some (tt, c1)
       /\ file c1
          = file chart_A
              ++ schema_document (series_index chart_A) (axis_id_1 c1) (axis_id_2 c1)
                   nodes_A.
Proof.
  split; [reflexivity |].
  exact (assembly_follows_schema chart_A 4%nat nodes_A eq_refl).
Defined.

(** C8: a pass leaves the id and the series list as they were, nodes and
    strings included.  It writes to the file and moves the counter; the two
    axis ids are set when [axis_id_1] is still 0 and are left alone
    otherwise. *)
Theorem assembly_frame (c : lxw_chart) (head : block) (l : lxw_chart_series_list)
  (Hs : series c = Some (head, l)) :
  exists c1,
    lxw_chart_assemble_xml_file c = Some (tt, c1)
    /\ id c1 = id c
    /\ series c1 = Some (head, l)
    /\ c1 = mk_chart (file c ++ written c c1) (id c) (axis_id_1 c1) (axis_id_2 c1)
                     (series_index c1) (series c)
    /\ axis_id_1 c1
       = (if axis_id_1 c =? 0 then uint32 (50010000 + id c + 1) else axis_id_1 c)
    /\ axis_id_2 c1
       = (if axis_id_1 c =? 0 then uint32 (50010000 + id c + 1) else axis_id_2 c).
Proof.
  exists (assembled c l). split; [exact (assemble_run c head l Hs) |].
  split; [reflexivity |].
  split; [exact Hs |].
  split; [rewrite written_assembled; reflexivity |].
  cbn [assembled updated axis_id_1 axis_id_2]. unfold axis_ids_of.
  rewrite uint32_chain.
  destruct (axis_id_1 c =? 0); split; reflexivity.
Qed.

(** The frame at [chart_A], whose axis ids are not set before the pass. *)
Lemma assembly_frame_witness :
  series chart_A = Some (4%nat, nodes_A)
  /\ exists c1,
       lxw_chart_assemble_xml_file chart_A = Some (tt, c1)
       /\ id c1 = id chart_A
       /\ series c1 = Some (4%nat, nodes_A)
       /\ axis_id_1 c1 = 50010001
       /\ axis_id_2 c1 = 50010001.
Proof.
  split; [reflexivity |].
  destruct (assembly_frame chart_A 4%nat nodes_A eq_refl)
    as (c1 & H1 & H2 & H3 & _ & H5 & H6).
  exists c1. auto.
Defined.

(** C10: a chart without series is assembled to the whole document.  The
    bar chart holds the direction, the grouping and then at once the two
    axis ids; everything after it is written as for any other chart. *)
Theorem assembly_without_series (c : lxw_chart) (head : block)
  (Hs : series c = Some (head, [])) :
  exists c1,
    lxw_chart_assemble_xml_file c = Some (tt, c1)
    /\ written c c1 = document_head ++ document_tail (axis_id_1 c1) (axis_id_2 c1)
    /\ element_content "c:barChart" (written c c1)
       = [ EmptyTag "c:barDir" (Some [("val", AttrStr "bar")]);
           EmptyTag "c:grouping" (Some [("val", AttrStr "clustered")]);
           EmptyTag "c:axId" (Some [("val", AttrInt (axis_id_1 c1))]);
           EmptyTag "c:axId" (Some [("val", AttrInt (axis_id_2 c1))]) ]
    /\ series_index c1 = series_index c.
Proof.
  exists (assembled c []). split; [exact (assemble_run c head [] Hs) |].
  rewrite written_assembled. repeat split; reflexivity.
Qed.

(** The document of the empty chart [chart_0]. *)
Lemma assembly_without_series_witness :
  series chart_0 = Some (4%nat, [])
  /\ exists c1,
       lxw_chart_assemble_xml_file chart_0 = Some (tt, c1)
       /\ written chart_0 c1 = document_head ++ document_tail 50010001 50010001.
Proof.
  split; [reflexivity |].
  destruct (assembly_without_series chart_0 4%nat eq_refl) as (c1 & H1 & H2 & _).
  exists c1. split; [exact H1 |].
  rewrite H2.
  assert (E : lxw_chart_assemble_xml_file chart_0 = Some (tt, assembled chart_0 []))
    by reflexivity.
  rewrite E in H1. injection H1 as <-. reflexivity.
Defined.

(** C4: the axis ids are a function of the chart id alone:
    [axis_id_1 = 50010000 + id + 1] in 32 bit arithmetic and [axis_id_2]
    the same value, so two charts with one id get one pair.  In the
    document the category axis crosses the id of the value axis and the
    value axis crosses the id of the category axis. *)
Theorem axis_ids_from_chart_id (c c' : lxw_chart) (head : block)
  (l : lxw_chart_series_list)
  (Hs : series c = Some (head, l)) (Hid : id c' = id c) :
  exists c1 c1' c2,
    _chart_add_axis_ids c = Some (tt, c1)
    /\ axis_id_1 c1 = uint32 (50010000 + id c + 1)
    /\ axis_id_2 c1 = axis_id_1 c1
    /\ _chart_add_axis_ids c' = Some (tt, c1')
    /\ axis_id_1 c1' = axis_id_1 c1
    /\ axis_id_2 c1' = axis_id_2 c1
    /\ lxw_chart_assemble_xml_file c = Some (tt, c2)
    /\ (axis_id_1 c = 0 ->
        axis_id_1 c2 = uint32 (50010000 + id c + 1) /\ axis_id_2 c2 = axis_id_1 c2)
    /\ val_of "c:axId" (element_content "c:catAx" (written c c2))
       = Some (AttrInt (axis_id_1 c2))
    /\ val_of "c:axId" (element_content "c:valAx" (written c c2))
       = Some (AttrInt (axis_id_2 c2))
    /\ val_of "c:crossAx" (element_content "c:catAx" (written c c2))
       = val_of "c:axId" (element_content "c:valAx" (written c c2))
    /\ val_of "c:crossAx" (element_content "c:valAx" (written c c2))
       = val_of "c:axId" (element_content "c:catAx" (written c c2)).
Proof.
  eexists _, _, (assembled c l).
  split; [apply add_axis_ids_run |].
  split; [apply uint32_chain |].
  split; [reflexivity |].
  split; [apply add_axis_ids_run |].
  split; [cbn [updated axis_id_1]; now rewrite Hid |].
  split; [cbn [updated axis_id_2]; now rewrite Hid |].
  split; [exact (assemble_run c head l Hs) |].
  split.
  { intros H0. cbn [assembled updated axis_id_1 axis_id_2].
    unfold axis_ids_of. rewrite H0. cbn [Z.eqb fst snd].
    split; [apply uint32_chain | reflexivity]. }
  rewrite written_assembled, cat_axis_of_document, val_axis_of_document.
  repeat split; reflexivity.
Qed.

(** [chart_A] and [chart_0] have the id 0 and get the pair 50010001. *)
Lemma axis_ids_from_chart_id_witness :
  series chart_A = Some (4%nat, nodes_A)
  /\ id chart_0 = id chart_A
  /\ exists c1 c1' c2,
       _chart_add_axis_ids chart_A = Some (tt, c1)
       /\ axis_id_1 c1 = 50010001
       /\ _chart_add_axis_ids chart_0 = Some (tt, c1')
       /\ axis_id_1 c1' = axis_id_1 c1
       /\ axis_id_2 c1' = axis_id_2 c1
       /\ lxw_chart_assemble_xml_file chart_A = Some (tt, c2)
       /\ axis_id_1 c2 = 50010001
       /\ axis_id_2 c2 = axis_id_1 c2
       /\ val_of "c:crossAx" (element_content "c:catAx" (written chart_A c2))
          = val_of "c:axId" (element_content "c:valAx" (written chart_A c2)).
Proof.
  split; [reflexivity |].
  split; [reflexivity |].
  destruct (axis_ids_from_chart_id chart_A chart_0 4%nat nodes_A eq_refl eq_refl)
    as (c1 & c1' & c2 & H1 & H2 & _ & H4 & H5 & H6 & H7 & H8 & _ & _ & H11 & _).
  destruct (H8 eq_refl) as [H8a H8b].
  exists c1, c1', c2. repeat split; assumption.
Defined.

(** C7: asking for the axis ids again changes nothing.  Any chart, asked
    twice, answers both times with the pair it holds after the first
    request; so does an assembly that follows: all six axis ids of the
    document are that pair.  When [axis_id_1] is set, a request reads the
    pair and does not compute it: the answer is the same whatever the id
    of the chart is by then. *)
Theorem axis_ids_idempotent (c : lxw_chart) (head : block)
  (l : lxw_chart_series_list) (Hs : series c = Some (head, l)) :
  exists c1 c2 c3,
    _chart_write_axis_ids c = Some (tt, c1)
    /\ _chart_write_axis_ids c1 = Some (tt, c2)
    /\ axis_id_1 c2 = axis_id_1 c1
    /\ axis_id_2 c2 = axis_id_2 c1
    /\ written c c1 = [ EmptyTag "c:axId" (Some [("val", AttrInt (axis_id_1 c1))]);
                        EmptyTag "c:axId" (Some [("val", AttrInt (axis_id_2 c1))]) ]
    /\ written c1 c2 = written c c1
    /\ lxw_chart_assemble_xml_file c1 = Some (tt, c3)
    /\ axis_id_1 c3 = axis_id_1 c1
    /\ axis_id_2 c3 = axis_id_2 c1
    /\ axis_references (written c1 c3)
       = [ Some (AttrInt (axis_id_1 c1)); Some (AttrInt (axis_id_2 c1));
           Some (AttrInt (axis_id_1 c1)); Some (AttrInt (axis_id_2 c1));
           Some (AttrInt (axis_id_2 c1)); Some (AttrInt (axis_id_1 c1)) ]
    /\ (axis_id_1 c1 <> 0 ->
        forall i : Z,
        exists c4,
          _chart_write_axis_ids (set_id c1 i) = Some (tt, c4)
          /\ axis_id_1 c4 = axis_id_1 c1
          /\ axis_id_2 c4 = axis_id_2 c1
          /\ written (set_id c1 i) c4 = written c c1).
Proof.
  pose (c1 := updated c [ EmptyTag "c:axId" (Some [("val", AttrInt (fst (axis_ids_of c)))]);
                          EmptyTag "c:axId" (Some [("val", AttrInt (snd (axis_ids_of c)))]) ]
                      (fst (axis_ids_of c)) (snd (axis_ids_of c)) (series_index c)).
  assert (Ha : axis_ids_of c1 = axis_ids_of c) by (apply axis_ids_stable; reflexivity).
  assert (H1 : _chart_write_axis_ids c = Some (tt, c1)) by apply axis_ids_run.
  assert (H2 := axis_ids_run c1). rewrite Ha in H2.
  assert (H3 := assemble_run c1 head l Hs).
  eexists c1, _, _.
  split; [exact H1 |].
  split; [exact H2 |].
  split; [reflexivity |].
  split; [reflexivity |].
  split; [apply written_updated |].
  split; [rewrite (written_updated c1); symmetry; apply (written_updated c) |].
  split; [exact H3 |].
  split; [cbn [assembled updated axis_id_1]; now rewrite Ha |].
  split; [cbn [assembled updated axis_id_2]; now rewrite Ha |].
  split; [rewrite written_assembled, axis_references_document, Ha; reflexivity |].
  intros Hc i.
  assert (Hi : axis_ids_of (set_id c1 i) = axis_ids_of c).
  { rewrite <- Ha. rewrite (axis_ids_cached c1 Hc).
    apply (axis_ids_cached (set_id c1 i)). exact Hc. }
  assert (H4 := axis_ids_run (set_id c1 i)). rewrite Hi in H4.
  eexists. split; [exact H4 |].
  split; [reflexivity |].
  split; [reflexivity |].
  rewrite (written_updated (set_id c1 i)). symmetry. apply (written_updated c).
Qed.

(** The requests at [chart_A]; the last one after the id was set to 7. *)
Lemma axis_ids_idempotent_witness :
  series chart_A = Some (4%nat, nodes_A)
  /\ exists c1 c2 c3 c4,
       _chart_write_axis_ids chart_A = Some (tt, c1)
       /\ _chart_write_axis_ids c1 = Some (tt, c2)
       /\ axis_id_1 c2 = axis_id_1 c1
       /\ axis_id_2 c2 = axis_id_2 c1
       /\ written c1 c2 = written chart_A c1
       /\ lxw_chart_assemble_xml_file c1 = Some (tt, c3)
       /\ axis_id_1 c3 = axis_id_1 c1
       /\ axis_id_2 c3 = axis_id_2 c1
       /\ _chart_write_axis_ids (set_id c1 7) = Some (tt, c4)
       /\ axis_id_1 c4 = axis_id_1 c1
       /\ axis_id_2 c4 = axis_id_2 c1.
Proof.
  split; [reflexivity |].
  destruct (axis_ids_idempotent chart_A 4%nat nodes_A eq_refl)
    as (c1 & c2 & c3 & H1 & H2 & H3 & H4 & H5 & H6 & H7 & H8 & H9 & _ & H11).
  assert (Hc : axis_id_1 c1 <> 0).
  { assert (E : _chart_write_axis_ids chart_A
                = Some (tt, updated chart_A
                              [ EmptyTag "c:axId" (Some [("val", AttrInt 50010001)]);
                                EmptyTag "c:axId" (Some [("val", AttrInt 50010001)]) ]
                              50010001 50010001 0)) by reflexivity.
    rewrite E in H1. injection H1 as <-. discriminate. }
  destruct (H11 Hc 7) as (c4 & H12 & H13 & H14 & _).
  exists c1, c2, c3, c4. repeat split; assumption.
Defined.

(* ================================================================== *)
(** ** Claims about the series list *)

(** C3, as the code has it: when no allocation fails, adding N series to
    a new chart gives a list of N nodes that hold copies of the
    descriptors' strings in the order of the calls, every call returning
    0.  The assembly then writes one series block for each node, in that
    order; the block at position [i] carries [i mod 65536] as its index
    and as its order, which is [i] itself below 65536, around the range of
    descriptor [i]. *)
Theorem add_then_assemble (rt : runtime) (users : list (block * lxw_chart_series))
  (Hrt : no_failure rt = true) :
  exists cb c0 rt0 c rt1 head l c1,
    lxw_chart_new rt = (Some (cb, c0), rt0)
    /\ add_each_series c0 (map Some users) rt0
       = Some (repeat 0 (List.length users), c, rt1)
    /\ series c = Some (head, l)
    /\ List.length l = List.length users
    /\ map (fun node => strings_of (snd node)) l
       = map (fun user => strings_of (snd user)) users
    /\ lxw_chart_assemble_xml_file c = Some (tt, c1)
    /\ written c c1
       = document_head ++ List.concat (series_blocks 0 l)
           ++ document_tail (axis_id_1 c1) (axis_id_2 c1)
    /\ List.length (series_blocks 0 l) = List.length users
    /\ (forall i user,
          nth_error users i = Some user ->
          nth_error (series_blocks 0 l) i
          = Some (ser_block (Z.of_nat i mod 65536)
                            (ptr_val (range (values (snd user))))))
    /\ (forall i user,
          nth_error users i = Some user ->
          Z.of_nat i < 65536 ->
          nth_error (series_blocks 0 l) i
          = Some (ser_block (Z.of_nat i) (ptr_val (range (values (snd user)))))).
Proof.
  destruct (lxw_chart_new_ok rt Hrt) as (cb & lb & rt0 & Hnew & H0).
  destruct (add_each_series_ok users (set_series zeroed_chart (Some (lb, []))) lb []
              rt0 eq_refl H0) as (l & rt1 & Hadd & Hl & _).
  cbn [app] in Hadd. rewrite set_series_twice in Hadd.
  assert (Hlen : List.length l = List.length users).
  { rewrite <- (length_map (fun node => strings_of (snd node)) l), Hl.
    apply length_map. }
  assert (Hnth : forall i user,
             nth_error users i = Some user ->
             nth_error (series_blocks 0 l) i
             = Some (ser_block (uint16 (Z.of_nat i))
                               (ptr_val (range (values (snd user)))))).
  { intros i user Hi.
    assert (E : nth_error (map (fun node => strings_of (snd node)) l) i
                = Some (strings_of (snd user)))
      by (rewrite Hl, nth_error_map, Hi; reflexivity).
    rewrite nth_error_map in E.
    destruct (nth_error l i) as [node |] eqn:En; [| discriminate].
    injection E as Er _.
    rewrite (series_blocks_nth l 0 i node En), Er. reflexivity. }
  exists cb, (set_series zeroed_chart (Some (lb, []))), rt0,
    (set_series zeroed_chart (Some (lb, l))), rt1, lb, l,
    (assembled (set_series zeroed_chart (Some (lb, l))) l).
  split; [exact Hnew |].
  split; [exact Hadd |].
  split; [reflexivity |].
  split; [exact Hlen |].
  split; [exact Hl |].
  split; [apply (assemble_run _ lb l); reflexivity |].
  split; [apply written_assembled |].
  split; [now rewrite series_blocks_length |].
  split; [exact Hnth |].
  intros i user Hi Hsmall. rewrite (Hnth i user Hi), uint16_small by lia.
  reflexivity.
Qed.

(** One series added to a new chart of [quiet_runtime]. *)
Lemma add_then_assemble_witness :
  no_failure quiet_runtime = true
  /\ exists c rt1 l c1,
       lxw_chart_new quiet_runtime = (Some (3%nat, chart_0), runtime_0)
       /\ add_each_series chart_0 [series_A] runtime_0 = Some ([0], c, rt1)
       /\ series c = Some (4%nat, l)
       /\ lxw_chart_assemble_xml_file c = Some (tt, c1)
       /\ nth_error (series_blocks 0 l) 0
          = Some (ser_block 0 (Some "Sheet1!$A$1:$A$3")).
Proof.
  split; [reflexivity |].
  destruct (add_then_assemble quiet_runtime
              [(0%nat, mk_chart_series
                         (mk_series_range (Some (1%nat, "Sheet1!$A$1:$A$3"))
                                          (Some (2%nat, "Sheet1"))))] eq_refl)
    as (cb & c0 & rt0 & c & rt1 & head & l & c1 & H1 & H2 & H3 & _ & _ & H6 & _ & _
        & _ & H10).
  assert (E : lxw_chart_new quiet_runtime = (Some (3%nat, chart_0), runtime_0))
    by reflexivity.
  rewrite E in H1. injection H1 as <- <- <-.
  assert (E2 : add_each_series chart_0 [series_A] runtime_0
               = Some ([0], chart_A, runtime_A)) by reflexivity.
  change (map Some _) with [series_A] in H2.
  rewrite E2 in H2. injection H2 as <- <-.
  injection H3 as <- <-.
  exists chart_A, runtime_A, nodes_A, c1.
  split; [reflexivity |].
  split; [reflexivity |].
  split; [reflexivity |].
  split; [exact H6 |].
  apply (H10 0%nat _ eq_refl). reflexivity.
Defined.

(** C3, counterexample: 65537 series are added to the new chart [chart_0]
    and the chart is assembled.  The series block at position 65536 starts
    at write [9 + 9 * 65536] of the document; its index and its order are
    0, not 65536. *)
Lemma series_65536_numbered_0 :
  exists c rt c1,
    add_each_series chart_0 (repeat series_A (Z.to_nat 65537)) runtime_0
    = Some (repeat 0 (Z.to_nat 65537), c, rt)
    /\ lxw_chart_assemble_xml_file c = Some (tt, c1)
    /\ nth_error (written c c1) (Z.to_nat (9 + 9 * 65536))
       = Some (StartTag "c:ser" None)
    /\ nth_error (written c c1) (Z.to_nat (9 + 9 * 65536 + 1))
       = Some (EmptyTag "c:idx" (Some [("val", AttrInt 0)]))
    /\ nth_error (written c c1) (Z.to_nat (9 + 9 * 65536 + 2))
       = Some (EmptyTag "c:order" (Some [("val", AttrInt 0)])).
Proof.
  destruct series_A as [user |] eqn:EA; [| discriminate].
  destruct (add_each_series_ok (repeat user (Z.to_nat 65537)) chart_0 4%nat []
              runtime_0 eq_refl eq_refl) as (l & rt & Hadd & Hl & _).
  rewrite map_repeat, repeat_length in Hadd.
  change ([] ++ l) with l in Hadd.
  assert (En : exists node,
             nth_error l (Z.to_nat 65536) = Some node
             /\ ptr_val (range (values (snd node))) = Some "Sheet1!$A$1:$A$3").
  { assert (E : nth_error (map (fun node => strings_of (snd node)) l) (Z.to_nat 65536)
                = Some (strings_of (snd user))).
    { rewrite Hl, map_repeat. apply nth_error_repeat. lia. }
    rewrite nth_error_map in E.
    destruct (nth_error l (Z.to_nat 65536)) as [node |]; [| discriminate].
    injection E as Er _.
    exists node. split; [reflexivity |].
    rewrite Er. injection EA as <-. reflexivity. }
  destruct En as (node & En & Er).
  assert (E0 : uint16 (series_index (set_series chart_0 (Some (4%nat, l)))
                       + Z.of_nat (Z.to_nat 65536)) = 0)
    by (rewrite Z2Nat.id by lia; reflexivity).
  assert (Hpos := document_nth (set_series chart_0 (Some (4%nat, l))) l
                    (Z.to_nat 65536) node En).
  rewrite E0, Er in Hpos.
  exists (set_series chart_0 (Some (4%nat, l))), rt,
    (assembled (set_series chart_0 (Some (4%nat, l))) l).
  split; [exact Hadd |].
  split; [apply (assemble_run _ 4%nat l); reflexivity |].
  rewrite written_assembled.
  replace (Z.to_nat (9 + 9 * 65536)) with (9 + (9 * Z.to_nat 65536 + 0))%nat by lia.
  replace (Z.to_nat (9 + 9 * 65536 + 1)) with (9 + (9 * Z.to_nat 65536 + 1))%nat by lia.
  replace (Z.to_nat (9 + 9 * 65536 + 2)) with (9 + (9 * Z.to_nat 65536 + 2))%nat by lia.
  repeat split; apply Hpos; solve [lia | reflexivity].
Qed.

(** C5, the code at the failing input: the node is allocated, the copy of
    the range fails, the copy of the sheet name succeeds.  The call returns
    0 and the list holds a node whose range is [NULL]. *)
Lemma strdup_failure_goes_unnoticed :
  chart_add_series chart_0 series_A runtime_strdup_fails
  = Some (0,
          mk_chart [] 0 0 0 0
            (Some (4%nat,
                   [(5%nat, mk_chart_series
                              (mk_series_range None (Some (6%nat, "Sheet1"))))])),
          mkRuntime 7%nat [6; 5; 4; 3]%nat [] [] []).
Proof. reflexivity. Qed.

(** The part of C5 the code does keep: when the node cannot be allocated
    the call returns -1 and the chart is as before. *)
Lemma node_failure_is_reported (self : lxw_chart) (user : block * lxw_chart_series)
  (rt : runtime) (rest : list bool) :
  outcomes rt = false :: rest ->
  chart_add_series self (Some user) rt
  = Some (-1, self,
          mkRuntime (next_block rt) (live rt) (released rt) rest (stderr rt)).
Proof.
  intros H. destruct user as [b user]. unfold chart_add_series, calloc.
  rewrite H. reflexivity.
Qed.

(** C6: with a [NULL] descriptor the call returns -1; the chart, and so
    its series list, is the one passed in; nothing is requested from the
    allocator and nothing released, only the warning is printed. *)
Theorem add_series_null_descriptor (self : lxw_chart) (rt : runtime) :
  exists rt',
    chart_add_series self None rt = Some (-1, self, rt')
    /\ next_block rt' = next_block rt
    /\ live rt' = live rt
    /\ released rt' = released rt
    /\ outcomes rt' = outcomes rt
    /\ stderr rt'
       = stderr rt ++ [Warning "chart_add_series(): series must be non-NULL"].
Proof. eexists. repeat split. Qed.

(* ================================================================== *)
(** ** Claims about the release *)

Lemma lxw_chart_free_null (rt : runtime) : lxw_chart_free None rt = rt.
Proof. reflexivity. Qed.

Lemma released_free (p : option block) (rt : runtime) :
  released (free p rt)
  = released rt ++ match p with Some b => [b] | None => [] end.
Proof. destruct p; cbn; [reflexivity | now rewrite app_nil_r]. Qed.

Lemma released_free_series_loop (l : lxw_chart_series_list) :
  forall rt,
    released (free_series_loop l rt)
    = released rt ++ flat_map (fun node => string_blocks (snd node)) l.
Proof.
  induction l as [| [b s] rest IH]; intros rt; cbn [free_series_loop flat_map].
  - now rewrite app_nil_r.
  - rewrite IH, !released_free. unfold string_blocks; cbn [snd].
    now rewrite <- !app_assoc.
Qed.

(** X9: what [lxw_chart_free] passes to [free], in this order: the strings of
    every node, the list, the chart.  No node is among them. *)
Lemma lxw_chart_free_releases (cb lb : block) (c : lxw_chart)
  (l : lxw_chart_series_list) (rt : runtime) :
  series c = Some (lb, l) ->
  released (lxw_chart_free (Some (cb, c)) rt)
  = released rt ++ flat_map (fun node => string_blocks (snd node)) l ++ [lb; cb].
Proof.
  intros Hs. unfold lxw_chart_free. rewrite Hs.
  rewrite !released_free, released_free_series_loop.
  now rewrite <- !app_assoc.
Qed.

(** A chart that was created, also one whose creation failed half way, and
    then freed leaves no block behind. *)
Lemma new_then_free_leaves_nothing (plan : list bool) :
  live (lxw_chart_free (fst (lxw_chart_new (mkRuntime 0%nat [] [] plan [])))
                       (snd (lxw_chart_new (mkRuntime 0%nat [] [] plan []))))
  = [].
Proof.
  destruct plan as [| [|] [| [|] plan]]; reflexivity.
Qed.

(** C9, the code at the failing input: [chart_A] is released.  The two
    strings, the list and the chart go to [free]; block 5, the series
    node, does not and stays allocated. *)
Lemma free_leaves_series_node :
  lxw_chart_free (Some (3%nat, chart_A)) runtime_A
  = mkRuntime 8%nat [5]%nat [6; 7; 4; 3]%nat [] [].
Proof. reflexivity. Qed.

(* ================================================================== *)
(** ** More about the document *)

Lemma nesting_app (doc doc' : list xml_write) :
  forall open,
    nesting open (doc ++ doc')
    = match nesting open doc with
      | Some open' => nesting open' doc'
      | None => None
      end.
Proof.
  induction doc as [| w rest IH]; intros open; [reflexivity |].
  destruct w; cbn [app nesting]; auto.
  destruct open as [| top below]; [reflexivity |].
  destruct (String.eqb top tag); auto.
Qed.

Lemma nesting_series_blocks (l : lxw_chart_series_list) :
  forall counter open,
    nesting open (List.concat (series_blocks counter l)) = Some open.
Proof.
  induction l as [| node rest IH]; intros counter open; [reflexivity |].
  cbn [series_blocks List.concat]. rewrite nesting_app.
  cbn [ser_block nesting]. rewrite !String.eqb_refl. apply IH.
Qed.

(** X1: every tag a pass opens is closed again, innermost first, and no end
    tag comes without its start tag: the plot area, which one function
    opens and another one closes, included.  The document begins with the
    XML declaration. *)
Theorem assembly_well_nested (c : lxw_chart) (head : block)
  (l : lxw_chart_series_list) (Hs : series c = Some (head, l)) :
  exists c1,
    lxw_chart_assemble_xml_file c = Some (tt, c1)
    /\ nesting [] (written c c1) = Some []
    /\ hd_error (written c c1) = Some XmlDeclaration.
Proof.
  exists (assembled c l). split; [exact (assemble_run c head l Hs) |].
  rewrite written_assembled. split; [| reflexivity].
  unfold document. rewrite nesting_app.
  change (nesting [] document_head)
    with (Some ["c:barChart"; "c:plotArea"; "c:chart"; "c:chartSpace"]).
  cbv beta iota. rewrite nesting_app, nesting_series_blocks. reflexivity.
Qed.

(** The nesting of the document of [chart_A]. *)
Lemma assembly_well_nested_witness :
  series chart_A = Some (4%nat, nodes_A)
  /\ exists c1,
       lxw_chart_assemble_xml_file chart_A = Some (tt, c1)
       /\ nesting [] (written chart_A c1) = Some [].
Proof.
  split; [reflexivity |].
  destruct (assembly_well_nested chart_A 4%nat nodes_A eq_refl) as (c1 & H1 & H2 & _).
  exists c1. auto.
Defined.

Lemma all_data_series_blocks (l : lxw_chart_series_list) :
  forall counter,
    all_data "c:f" (List.concat (series_blocks counter l)) = map range_of l.
Proof.
  unfold all_data.
  induction l as [| node rest IH]; intros counter; [reflexivity |].
  cbn [series_blocks List.concat map]. rewrite flat_map_app, IH. reflexivity.
Qed.

Lemma all_vals_series_blocks (tag : string) (l : lxw_chart_series_list) :
  tag = "c:idx" \/ tag = "c:order" ->
  forall (base : Z) (k : nat) (counter : Z),
    uint16 counter = uint16 (base + Z.of_nat k) ->
    all_vals tag (List.concat (series_blocks counter l))
    = map (fun i => Some (AttrInt (uint16 (base + Z.of_nat i))))
          (seq k (List.length l)).
Proof.
  intros Htag. unfold all_vals.
  induction l as [| node rest IH]; intros base k counter H; [reflexivity |].
  cbn [series_blocks List.concat List.length seq map]. rewrite flat_map_app.
  rewrite (IH base (S k)).
  - rewrite H. destruct Htag as [-> | ->]; reflexivity.
  - rewrite uint16_idem, <- uint16_succ, H, uint16_succ. f_equal. lia.
Qed.

Lemma all_vals_document (tag : string) (c : lxw_chart) (l : lxw_chart_series_list) :
  tag = "c:idx" \/ tag = "c:order" ->
  all_vals tag (document c l)
  = map (fun i => Some (AttrInt (uint16 (series_index c + Z.of_nat i))))
        (seq 0 (List.length l)).
Proof.
  intros Htag. unfold document, all_vals. rewrite !flat_map_app.
  fold (all_vals tag (List.concat (series_blocks (series_index c) l))).
  rewrite (all_vals_series_blocks tag l Htag (series_index c) 0 (series_index c))
    by (now rewrite Z.add_0_r).
  assert (Hh : flat_map (vals_of tag) document_head = [])
    by (destruct Htag as [-> | ->]; reflexivity).
  assert (Ht : forall a1 a2, flat_map (vals_of tag) (document_tail a1 a2) = [])
    by (destruct Htag as [-> | ->]; reflexivity).
  rewrite Hh, Ht. now rewrite app_nil_r.
Qed.

Lemma all_data_document (c : lxw_chart) (l : lxw_chart_series_list) :
  all_data "c:f" (document c l) = map range_of l.
Proof.
  unfold document, all_data. rewrite !flat_map_app.
  fold (all_data "c:f" (List.concat (series_blocks (series_index c) l))).
  rewrite all_data_series_blocks.
  assert (Hh : flat_map (data_of "c:f") document_head = []) by reflexivity.
  assert (Ht : forall a1 a2, flat_map (data_of "c:f") (document_tail a1 a2) = [])
    by reflexivity.
  rewrite Hh, Ht. now rewrite app_nil_r.
Qed.

(** X2: the document holds one reference for each series, in the order of the
    list: the texts of its [<c:f>] elements are the ranges of the nodes.
    The [<c:order>] values are the [<c:idx>] values, one for each series,
    counted up from the counter. *)
Theorem assembly_references_in_order (c : lxw_chart) (head : block)
  (l : lxw_chart_series_list) (Hs : series c = Some (head, l)) :
  exists c1,
    lxw_chart_assemble_xml_file c = Some (tt, c1)
    /\ all_data "c:f" (written c c1) = map range_of l
    /\ all_vals "c:idx" (written c c1)
       = map (fun i => Some (AttrInt (uint16 (series_index c + Z.of_nat i))))
             (seq 0 (List.length l))
    /\ all_vals "c:order" (written c c1) = all_vals "c:idx" (written c c1).
Proof.
  exists (assembled c l). split; [exact (assemble_run c head l Hs) |].
  rewrite written_assembled.
  split; [apply all_data_document |].
  split; [apply all_vals_document; auto |].
  rewrite !all_vals_document by auto. reflexivity.
Qed.

(** The references of the chart with two series. *)
Lemma assembly_references_in_order_witness :
  series chart_AB = Some (4%nat, nodes_AB)
  /\ exists c1,
       lxw_chart_assemble_xml_file chart_AB = Some (tt, c1)
       /\ all_data "c:f" (written chart_AB c1)
          = [Some "Sheet1!$A$1:$A$3"; Some "Sheet1!$B$1:$B$3"]
       /\ all_vals "c:idx" (written chart_AB c1) = [Some (AttrInt 0); Some (AttrInt 1)].
Proof.
  split; [reflexivity |].
  destruct (assembly_references_in_order chart_AB 4%nat nodes_AB eq_refl)
    as (c1 & H1 & H2 & H3 & _).
  exists c1. auto.
Defined.

Lemma series_blocks_ext (l : lxw_chart_series_list) :
  forall (l' : lxw_chart_series_list) (counter : Z),
    map range_of l = map range_of l' ->
    series_blocks counter l = series_blocks counter l'.
Proof.
  induction l as [| node rest IH]; intros [| node' rest'] counter H;
    try discriminate; [reflexivity |].
  cbn [map] in H. injection H as Hn Hr.
  cbn [series_blocks]. unfold range_of in Hn. rewrite Hn. f_equal. now apply IH.
Qed.

(** X3: the document is made of the id, the axis ids, the counter and the
    ranges in list order, and of nothing else: two charts that agree on
    these get the same document, whatever the sheet names of their series
    are and wherever their nodes and strings lie. *)
Theorem assembly_ignores_sheetnames (c c' : lxw_chart) (head head' : block)
  (l l' : lxw_chart_series_list)
  (Hs : series c = Some (head, l)) (Hs' : series c' = Some (head', l'))
  (Hid : id c' = id c) (H1 : axis_id_1 c' = axis_id_1 c)
  (H2 : axis_id_2 c' = axis_id_2 c) (Hi : series_index c' = series_index c)
  (Hr : map range_of l' = map range_of l) :
  exists c1 c1',
    lxw_chart_assemble_xml_file c = Some (tt, c1)
    /\ lxw_chart_assemble_xml_file c' = Some (tt, c1')
    /\ written c' c1' = written c c1.
Proof.
  exists (assembled c l), (assembled c' l').
  split; [exact (assemble_run c head l Hs) |].
  split; [exact (assemble_run c' head' l' Hs') |].
  rewrite !written_assembled. unfold document, axis_ids_of.
  rewrite Hid, H1, H2, Hi, (series_blocks_ext l' l _ Hr). reflexivity.
Qed.

(** [chart_A] against [chart_A_moved]. *)
Lemma assembly_ignores_sheetnames_witness :
  series chart_A = Some (4%nat, nodes_A)
  /\ series chart_A_moved = Some (20%nat, nodes_A_moved)
  /\ map range_of nodes_A_moved = map range_of nodes_A
  /\ exists c1 c1',
       lxw_chart_assemble_xml_file chart_A = Some (tt, c1)
       /\ lxw_chart_assemble_xml_file chart_A_moved = Some (tt, c1')
       /\ written chart_A_moved c1' = written chart_A c1.
Proof.
  split; [reflexivity |].
  split; [reflexivity |].
  split; [reflexivity |].
  exact (assembly_ignores_sheetnames chart_A chart_A_moved 4%nat 20%nat
           nodes_A nodes_A_moved
           eq_refl eq_refl eq_refl eq_refl eq_refl eq_refl eq_refl).
Defined.

Lemma uint16_window (base i j : Z) :
  0 <= i < 65536 -> 0 <= j < 65536 ->
  uint16 (base + i) = uint16 (base + j) -> i = j.
Proof.
  unfold uint16. change (2 ^ 16) with 65536. intros Hi Hj H.
  assert (E : (base + i - (base + j)) mod 65536 = 0).
  { rewrite Zminus_mod, H, Z.sub_diag. reflexivity. }
  apply Z.mod_divide in E; [| lia].
  destruct E as [q E]. nia.
Qed.

(** X4: up to 65536 series get pairwise different indices in one pass,
    wherever the counter starts. *)
Theorem assembly_indices_distinct (c : lxw_chart) (head : block)
  (l : lxw_chart_series_list) (Hs : series c = Some (head, l))
  (Hn : Z.of_nat (List.length l) <= 65536) :
  exists c1,
    lxw_chart_assemble_xml_file c = Some (tt, c1)
    /\ List.length (all_vals "c:idx" (written c c1)) = List.length l
    /\ NoDup (all_vals "c:idx" (written c c1)).
Proof.
  exists (assembled c l). split; [exact (assemble_run c head l Hs) |].
  rewrite written_assembled, all_vals_document by auto.
  split; [now rewrite length_map, length_seq |].
  apply NoDup_map_NoDup_ForallPairs; [| apply seq_NoDup].
  intros i j Hi Hj E. apply in_seq in Hi, Hj. injection E as E.
  apply uint16_window in E; lia.
Qed.

(** The one index of [chart_A]. *)
Lemma assembly_indices_distinct_witness :
  series chart_A = Some (4%nat, nodes_A)
  /\ Z.of_nat (List.length nodes_A) <= 65536
  /\ exists c1,
       lxw_chart_assemble_xml_file chart_A = Some (tt, c1)
       /\ List.length (all_vals "c:idx" (written chart_A c1)) = 1%nat
       /\ NoDup (all_vals "c:idx" (written chart_A c1)).
Proof.
  split; [reflexivity |].
  assert (Hn : Z.of_nat (List.length nodes_A) <= 65536) by (cbn; lia).
  split; [exact Hn |].
  exact (assembly_indices_distinct chart_A 4%nat nodes_A eq_refl Hn).
Defined.

(* ================================================================== *)
(** ** More about the series list *)

Lemma set_series_same (c : lxw_chart) (head : block) (l : lxw_chart_series_list) :
  series c = Some (head, l) -> set_series c (Some (head, l ++ [])) = c.
Proof. destruct c; cbn; intros ->. now rewrite app_nil_r. Qed.

Lemma released_calloc (rt rt' : runtime) (p : option block) :
  calloc rt = (p, rt') -> released rt' = released rt.
Proof.
  unfold calloc.
  destruct (outcomes rt) as [| [|] rest]; intros E; injection E as _ <-; reflexivity.
Qed.

Lemma released_strdup (str : ptr string) (rt rt' : runtime) (p : ptr string) :
  lxw_strdup str rt = (p, rt') -> released rt' = released rt.
Proof.
  unfold lxw_strdup. destruct str as [[b s] |].
  - destruct (calloc rt) as [[b0 |] rt0] eqn:E0; intros E; injection E as _ <-;
      exact (released_calloc _ _ _ E0).
  - intros E; injection E as _ <-; reflexivity.
Qed.

(** One call on a chart that has a list: the list keeps its nodes and
    gets one more at its tail when the call returns 0, and the chart is
    the same when it returns -1. *)
Lemma chart_add_series_step (self : lxw_chart) (head : block)
  (l : lxw_chart_series_list) (user_series : ptr lxw_chart_series) (rt : runtime) :
  series self = Some (head, l) ->
  exists code l1 rt',
    chart_add_series self user_series rt
    = Some (code, set_series self (Some (head, l ++ l1)), rt')
    /\ released rt' = released rt
    /\ ((code = -1 /\ l1 = []) \/ (code = 0 /\ exists node, l1 = [node])).
Proof.
  intros Hs. unfold chart_add_series.
  destruct user_series as [[b user] |].
  - destruct (calloc rt) as [[node |] rt1] eqn:Ec.
    + destruct (lxw_strdup (range (values user)) rt1) as [r rt2] eqn:E1.
      destruct (lxw_strdup (sheetname (values user)) rt2) as [n rt3] eqn:E2.
      rewrite Hs. eexists 0, [_], rt3. split; [reflexivity |].
      split; [| right; eauto].
      rewrite (released_strdup _ _ _ _ E2), (released_strdup _ _ _ _ E1).
      exact (released_calloc _ _ _ Ec).
    + exists (-1), [], rt1. rewrite (set_series_same self head l Hs).
      split; [reflexivity |]. split; [| left; auto].
      exact (released_calloc _ _ _ Ec).
  - eexists (-1), [], _. rewrite (set_series_same self head l Hs).
    split; [reflexivity |]. split; [reflexivity | left; auto].
Qed.

Lemma add_each_series_total (descriptors : list (ptr lxw_chart_series)) :
  forall (self : lxw_chart) (head : block) (l : lxw_chart_series_list) (rt : runtime),
    series self = Some (head, l) ->
    exists codes l' rt',
      add_each_series self descriptors rt
      = Some (codes, set_series self (Some (head, l ++ l')), rt')
      /\ List.length codes = List.length descriptors
      /\ Forall (fun code => code = 0 \/ code = -1) codes
      /\ List.length l' = count_occ Z.eq_dec codes 0
      /\ released rt' = released rt.
Proof.
  induction descriptors as [| d rest IH]; intros self head l rt Hs.
  - exists [], [], rt. cbn [add_each_series].
    rewrite (set_series_same self head l Hs). repeat split. constructor.
  - cbn [add_each_series].
    destruct (chart_add_series_step self head l d rt Hs)
      as (code & l1 & rt1 & -> & Hr1 & Hcode).
    destruct (IH (set_series self (Some (head, l ++ l1))) head (l ++ l1) rt1 eq_refl)
      as (codes & l' & rt2 & -> & Hlen & Hall & Hcount & Hr2).
    exists (code :: codes), (l1 ++ l'), rt2.
    rewrite set_series_twice, <- app_assoc.
    split; [reflexivity |].
    split; [cbn; now rewrite Hlen |].
    split; [constructor; [destruct Hcode as [[-> _] | [-> _]]; auto | exact Hall] |].
    split; [| now rewrite Hr2].
    rewrite length_app, Hcount.
    destruct Hcode as [[-> ->] | [-> [node ->]]].
    + rewrite count_occ_cons_neq by discriminate. reflexivity.
    + rewrite count_occ_cons_eq by reflexivity. reflexivity.
Qed.

(** X5: whatever the descriptors are and whichever allocations fail, every
    call returns 0 or -1, the nodes the list had stay where they were, and
    the list grows at its tail by one node for each call that returned 0.
    No call releases a block. *)
Theorem add_series_counts (self : lxw_chart) (head : block)
  (l : lxw_chart_series_list) (descriptors : list (ptr lxw_chart_series))
  (rt : runtime) (Hs : series self = Some (head, l)) :
  exists codes self' l' rt',
    add_each_series self descriptors rt = Some (codes, self', rt')
    /\ List.length codes = List.length descriptors
    /\ Forall (fun code => code = 0 \/ code = -1) codes
    /\ series self' = Some (head, l ++ l')
    /\ List.length l' = count_occ Z.eq_dec codes 0
    /\ file self' = file self
    /\ id self' = id self
    /\ axis_id_1 self' = axis_id_1 self
    /\ axis_id_2 self' = axis_id_2 self
    /\ series_index self' = series_index self
    /\ released rt' = released rt.
Proof.
  destruct (add_each_series_total descriptors self head l rt Hs)
    as (codes & l' & rt' & H & Hlen & Hall & Hcount & Hr).
  exists codes, (set_series self (Some (head, l ++ l'))), l', rt'.
  repeat split; assumption.
Qed.

(** A [NULL] descriptor, a descriptor whose node cannot be allocated and
    [series_A], added to [chart_0]. *)
Lemma add_series_counts_witness :
  series chart_0 = Some (4%nat, [])
  /\ exists self' l' rt',
       add_each_series chart_0 [None; series_A; series_A]
         (mkRuntime 5%nat [4; 3]%nat [] [false] [])
       = Some ([-1; -1; 0], self', rt')
       /\ series self' = Some (4%nat, l')
       /\ List.length l' = 1%nat.
Proof.
  split; [reflexivity |].
  destruct (add_series_counts chart_0 4%nat [] [None; series_A; series_A]
              (mkRuntime 5%nat [4; 3]%nat [] [false] []) eq_refl)
    as (codes & self' & l' & rt' & H1 & _ & _ & H4 & H5 & _).
  assert (E : exists s r,
             add_each_series chart_0 [None; series_A; series_A]
               (mkRuntime 5%nat [4; 3]%nat [] [false] [])
             = Some ([-1; -1; 0], s, r)) by (eexists _, _; reflexivity).
  destruct E as (s & r & E). rewrite E in H1. injection H1 as <- <- <-.
  exists s, l', r. repeat split; assumption.
Defined.

(** X6: a chart that [lxw_chart_new] returned can be given any descriptors and
    then be assembled, whichever allocations fail on the way: no call reads
    through a [NULL] list pointer. *)
Theorem new_chart_is_usable (rt rt0 rt1 : runtime) (cb : block) (c : lxw_chart)
  (descriptors : list (ptr lxw_chart_series))
  (Hnew : lxw_chart_new rt = (Some (cb, c), rt0)) :
  exists codes c' rt' c1,
    add_each_series c descriptors rt1 = Some (codes, c', rt')
    /\ lxw_chart_assemble_xml_file c' = Some (tt, c1)
    /\ List.length (nodes_of c') = count_occ Z.eq_dec codes 0
    /\ nodes_of c1 = nodes_of c'.
Proof.
  assert (Hc : exists lb, c = set_series zeroed_chart (Some (lb, []))).
  { unfold lxw_chart_new in Hnew.
    destruct (calloc rt) as [[b |] r1]; [| discriminate].
    destruct (calloc r1) as [[lb |] r2]; [| discriminate].
    injection Hnew as _ <- _. eauto. }
  destruct Hc as [lb ->].
  destruct (add_each_series_total descriptors
              (set_series zeroed_chart (Some (lb, []))) lb [] rt1 eq_refl)
    as (codes & l' & rt' & H & _ & _ & Hcount & _).
  cbn [app] in H. rewrite set_series_twice in H.
  exists codes, (set_series zeroed_chart (Some (lb, l'))), rt',
    (assembled (set_series zeroed_chart (Some (lb, l'))) l').
  split; [exact H |].
  split; [apply (assemble_run _ lb l'); reflexivity |].
  split; [exact Hcount | reflexivity].
Qed.

(** The chart of [quiet_runtime], given [series_A] while the copy of the
    range fails. *)
Lemma new_chart_is_usable_witness :
  lxw_chart_new quiet_runtime = (Some (3%nat, chart_0), runtime_0)
  /\ exists codes c' rt' c1,
       add_each_series chart_0 [series_A] runtime_strdup_fails = Some (codes, c', rt')
       /\ lxw_chart_assemble_xml_file c' = Some (tt, c1).
Proof.
  split; [reflexivity |].
  destruct (new_chart_is_usable quiet_runtime runtime_0 runtime_strdup_fails 3%nat
              chart_0 [series_A] eq_refl)
    as (codes & c' & rt' & c1 & H1 & H2 & _).
  exists codes, c', rt', c1. auto.
Defined.

(* ================================================================== *)
(** ** More about creation and release *)

Lemma heap_ok_fresh (rt : runtime) (b : block) :
  heap_ok rt -> (next_block rt <= b)%nat -> ~ In b (live rt).
Proof.
  unfold heap_ok. rewrite Forall_forall. intros H Hb Hin.
  specialize (H b Hin). lia.
Qed.

(** X7: [lxw_chart_new] either returns [NULL] and leaves allocated what was
    allocated before, or returns a chart of two new blocks whose fields
    are 0 and whose list is empty. *)
Theorem lxw_chart_new_result (rt rt' : runtime) (p : ptr lxw_chart)
  (Hok : heap_ok rt) (Hnew : lxw_chart_new rt = (p, rt')) :
  (p = None /\ live rt' = live rt)
  \/ (exists cb lb,
        p = Some (cb, mk_chart [] 0 0 0 0 (Some (lb, [])))
        /\ cb <> lb
        /\ ~ In cb (live rt)
        /\ ~ In lb (live rt)
        /\ live rt' = lb :: cb :: live rt).
Proof.
  unfold lxw_chart_new, calloc in Hnew.
  assert (Hf : ~ In (next_block rt) (live rt)) by (apply heap_ok_fresh; auto).
  assert (Hf' : ~ In (S (next_block rt)) (live rt)) by (apply heap_ok_fresh; auto).
  destruct (outcomes rt) as [| [|] [| [|] rest]]; cbn in Hnew;
    injection Hnew as <- <-; cbn [released live].
  all: try (right; exists (next_block rt), (S (next_block rt));
            repeat split; auto; lia).
  all: try (left; split; reflexivity).
  left. split; [reflexivity |].
  destruct (Nat.eq_dec (next_block rt) (next_block rt)); [| contradiction].
  now apply notin_remove.
Qed.

(** The failure half way: the chart is allocated, its list is not. *)
Lemma lxw_chart_new_result_witness :
  heap_ok runtime_second_fails
  /\ lxw_chart_new runtime_second_fails
     = (None, mkRuntime 4%nat [2; 1; 0]%nat [3%nat] [] [])
  /\ live (mkRuntime 4%nat [2; 1; 0]%nat [3%nat] [] []) = live runtime_second_fails.
Proof.
  assert (Hok : heap_ok runtime_second_fails)
    by (repeat constructor).
  split; [exact Hok |].
  split; [reflexivity |].
  destruct (lxw_chart_new_result runtime_second_fails _ _ Hok eq_refl)
    as [[_ H] | (cb & lb & H & _)]; [exact H | discriminate].
Defined.

(** X8: creation followed at once by release leaves allocated exactly what
    was allocated before, whether both allocations succeed, the second one
    fails or the first one does. *)
Theorem new_then_free_restores (rt : runtime) (Hok : heap_ok rt) :
  live (lxw_chart_free (fst (lxw_chart_new rt)) (snd (lxw_chart_new rt)))
  = live rt.
Proof.
  assert (Hf : ~ In (next_block rt) (live rt)) by (apply heap_ok_fresh; auto).
  assert (Hf' : ~ In (S (next_block rt)) (live rt)) by (apply heap_ok_fresh; auto).
  assert (Hne : S (next_block rt) <> next_block rt) by lia.
  unfold lxw_chart_new, calloc.
  assert (Hf2 : ~ In (S (next_block rt)) (next_block rt :: live rt))
    by (cbn [In]; intros [E | E]; [lia | contradiction]).
  destruct (outcomes rt) as [| [|] [| [|] rest]]; cbn - [remove];
    rewrite ?remove_cons, ?(notin_remove _ _ _ Hf2), ?remove_cons,
      ?(notin_remove _ _ _ Hf);
    reflexivity.
Qed.

(** Creation and release in a runtime that holds three blocks already. *)
Lemma new_then_free_restores_witness :
  heap_ok runtime_second_fails
  /\ live (lxw_chart_free (fst (lxw_chart_new runtime_second_fails))
                          (snd (lxw_chart_new runtime_second_fails)))
     = [2; 1; 0]%nat.
Proof.
  assert (Hok : heap_ok runtime_second_fails) by (repeat constructor).
  split; [exact Hok |].
  exact (new_then_free_restores runtime_second_fails Hok).
Defined.

(** The order of the releases of [chart_A]. *)
Lemma lxw_chart_free_releases_witness :
  series chart_A = Some (4%nat, nodes_A)
  /\ released (lxw_chart_free (Some (3%nat, chart_A)) runtime_A) = [6; 7; 4; 3]%nat.
Proof.
  split; [reflexivity |].
  exact (lxw_chart_free_releases 3%nat 4%nat chart_A nodes_A runtime_A eq_refl).
Defined.

Lemma live_free (p : option block) (rt : runtime) (b : block) :
  In b (live (free p rt)) <-> In b (live rt) /\ p <> Some b.
Proof.
  destruct p as [a |]; cbn [free live].
  - split.
    + intros H. apply in_remove in H. destruct H as [H Hne].
      split; [exact H | congruence].
    + intros [H Hne]. apply in_in_remove; [congruence | exact H].
  - split; [intros H; split; [exact H | discriminate] | tauto].
Qed.

Lemma live_free_series_loop (l : lxw_chart_series_list) (b : block) :
  forall rt,
    In b (live (free_series_loop l rt))
    <-> In b (live rt) /\ ~ In b (flat_map (fun node => string_blocks (snd node)) l).
Proof.
  induction l as [| [nb s] rest IH]; intros rt; cbn [free_series_loop flat_map].
  - tauto.
  - rewrite IH, !live_free, in_app_iff. unfold string_blocks; cbn [snd].
    rewrite in_app_iff.
    destruct (ptr_block (range (values s))) as [r |];
      destruct (ptr_block (sheetname (values s))) as [n |]; cbn [In];
      intuition congruence.
Qed.

(** X10: after [lxw_chart_free] a block is still allocated exactly when it was
    allocated before and is none of the strings, the list and the chart.
    So the block of a series node stays allocated. *)
Theorem lxw_chart_free_keeps (cb lb : block) (c : lxw_chart)
  (l : lxw_chart_series_list) (rt : runtime) (b : block)
  (Hs : series c = Some (lb, l)) :
  In b (live (lxw_chart_free (Some (cb, c)) rt))
  <-> In b (live rt) /\ ~ In b (freed_blocks cb lb l).
Proof.
  unfold lxw_chart_free, freed_blocks. rewrite Hs.
  rewrite !live_free, live_free_series_loop, in_app_iff. cbn [In].
  intuition congruence.
Qed.

(** Block 5, the node of [chart_A], after the release. *)
Lemma lxw_chart_free_keeps_witness :
  series chart_A = Some (4%nat, nodes_A)
  /\ In 5%nat (live (lxw_chart_free (Some (3%nat, chart_A)) runtime_A)).
Proof.
  split; [reflexivity |].
  apply (lxw_chart_free_keeps 3%nat 4%nat chart_A nodes_A runtime_A 5%nat eq_refl).
  split.
  - cbn. auto.
  - cbn. intros [H | [H | [H | [H | []]]]]; discriminate.
Defined.

(* ================================================================== *)
(** ** More about the axis ids *)

Lemma uint32_window (base i j : Z) :
  0 <= i < 2 ^ 32 -> 0 <= j < 2 ^ 32 ->
  uint32 (base + i) = uint32 (base + j) -> i = j.
Proof.
  unfold uint32. change (2 ^ 32) with 4294967296. intros Hi Hj H.
  assert (E : (base + i - (base + j)) mod 4294967296 = 0).
  { rewrite Zminus_mod, H, Z.sub_diag. reflexivity. }
  apply Z.mod_divide in E; [| lia].
  destruct E as [q E]. nia.
Qed.

(** X11: charts with different ids get different axis ids. *)
Theorem axis_ids_differ (c c' : lxw_chart)
  (Hc : 0 <= id c < 2 ^ 32) (Hc' : 0 <= id c' < 2 ^ 32) (Hne : id c <> id c') :
  exists c1 c1',
    _chart_add_axis_ids c = Some (tt, c1)
    /\ _chart_add_axis_ids c' = Some (tt, c1')
    /\ axis_id_1 c1 <> axis_id_1 c1'
    /\ axis_id_2 c1 <> axis_id_2 c1'.
Proof.
  eexists _, _.
  split; [apply add_axis_ids_run |].
  split; [apply add_axis_ids_run |].
  cbn [updated axis_id_1 axis_id_2]. rewrite !uint32_chain.
  assert (H : uint32 (50010000 + id c + 1) <> uint32 (50010000 + id c' + 1)).
  { intros E. apply Hne.
    apply (uint32_window 50010001); try assumption.
    replace (50010001 + id c) with (50010000 + id c + 1) by lia.
    replace (50010001 + id c') with (50010000 + id c' + 1) by lia.
    exact E. }
  split; exact H.
Qed.

(** The ids 0 of [chart_A] and 1 of [chart_AB]. *)
Lemma axis_ids_differ_witness :
  0 <= id chart_A < 2 ^ 32
  /\ 0 <= id chart_AB < 2 ^ 32
  /\ id chart_A <> id chart_AB
  /\ exists c1 c1',
       _chart_add_axis_ids chart_A = Some (tt, c1)
       /\ _chart_add_axis_ids chart_AB = Some (tt, c1')
       /\ axis_id_1 c1 <> axis_id_1 c1'.
Proof.
  assert (H1 : 0 <= id chart_A < 2 ^ 32) by (cbn; lia).
  assert (H2 : 0 <= id chart_AB < 2 ^ 32) by (cbn; lia).
  assert (H3 : id chart_A <> id chart_AB) by (cbn; lia).
  split; [exact H1 |]. split; [exact H2 |]. split; [exact H3 |].
  destruct (axis_ids_differ chart_A chart_AB H1 H2 H3) as (c1 & c1' & E1 & E2 & E3 & _).
  exists c1, c1'. auto.
Defined.

(** X12: the axis id is [50010001 + id] as long as this fits into 32 bits and
    wraps around above.  It is 0, the value that stands for "not set",
    for the single id 4244957295. *)
Theorem axis_id_wraps (c : lxw_chart) (Hc : 0 <= id c < 2 ^ 32) :
  exists c1,
    _chart_add_axis_ids c = Some (tt, c1)
    /\ 0 <= axis_id_1 c1 < 2 ^ 32
    /\ axis_id_1 c1
       = (if id c <? 4244957295 then 50010001 + id c else id c - 4244957295)
    /\ (axis_id_1 c1 = 0 <-> id c = 4244957295).
Proof.
  eexists. split; [apply add_axis_ids_run |].
  cbn [updated axis_id_1]. rewrite uint32_chain.
  assert (E : uint32 (50010000 + id c + 1)
              = (if id c <? 4244957295 then 50010001 + id c else id c - 4244957295)).
  { unfold uint32. change (2 ^ 32) with 4294967296 in *.
    destruct (Z.ltb_spec (id c) 4244957295).
    - rewrite Z.mod_small; lia.
    - symmetry. apply (Z.mod_unique_pos _ _ 1); lia. }
  rewrite E. change (2 ^ 32) with 4294967296 in *.
  destruct (Z.ltb_spec (id c) 4244957295); repeat split; lia.
Qed.

(** The id 0 of [chart_A]. *)
Lemma axis_id_wraps_witness :
  0 <= id chart_A < 2 ^ 32
  /\ exists c1,
       _chart_add_axis_ids chart_A = Some (tt, c1)
       /\ axis_id_1 c1 = 50010001.
Proof.
  assert (H : 0 <= id chart_A < 2 ^ 32) by (cbn; lia).
  split; [exact H |].
  destruct (axis_id_wraps chart_A H) as (c1 & E1 & _ & E3 & _).
  exists c1. split; [exact E1 | exact E3].
Defined.

(* ================================================================== *)
(** ** Passes in a row *)

Lemma uint16_range (z : Z) : 0 <= uint16 z < 65536.
Proof. unfold uint16. change (2 ^ 16) with 65536. apply Z.mod_pos_bound. lia. Qed.

Lemma counter_after_in_range (l : lxw_chart_series_list) (counter : Z) :
  0 <= counter < 65536 ->
  counter_after counter l = uint16 (counter + Z.of_nat (List.length l)).
Proof.
  intros H. destruct l as [| node rest].
  - cbn. rewrite Z.add_0_r. symmetry. now apply uint16_small.
  - apply counter_after_closed. discriminate.
Qed.

(** X13: [k] passes in a row all succeed; they leave the id and the list as
    they were, only add to the file, and move the counter by [k] times the
    number of series, modulo 65536. *)
Theorem assemble_times_counts (k : nat) :
  forall (c : lxw_chart) (head : block) (l : lxw_chart_series_list)
         (Hs : series c = Some (head, l))
         (Hr : 0 <= series_index c < 65536),
  exists ck out,
    assemble_times k c = Some (tt, ck)
    /\ series_index ck
       = uint16 (series_index c + Z.of_nat k * Z.of_nat (List.length l))
    /\ series ck = Some (head, l)
    /\ id ck = id c
    /\ file ck = file c ++ out.
Proof.
  induction k as [| k IH]; intros c head l Hs Hr.
  - exists c, []. cbn [assemble_times ret].
    split; [reflexivity |].
    split; [rewrite Z.mul_0_l, Z.add_0_r; symmetry; now apply uint16_small |].
    split; [exact Hs |]. split; [reflexivity | now rewrite app_nil_r].
  - cbn [assemble_times]. unfold bind at 1. rewrite (assemble_run c head l Hs).
    assert (Hc : series_index (assembled c l)
                 = uint16 (series_index c + Z.of_nat (List.length l)))
      by (apply counter_after_in_range; exact Hr).
    destruct (IH (assembled c l) head l Hs
                (eq_ind_r (fun z => 0 <= z < 65536) (uint16_range _) Hc))
      as (ck & out & H1 & H2 & H3 & H4 & H5).
    exists ck, (document c l ++ out).
    split; [exact H1 |].
    split.
    { rewrite H2, Hc. unfold uint16. rewrite Zplus_mod_idemp_l. f_equal.
      rewrite Nat2Z.inj_succ. lia. }
    split; [exact H3 |]. split; [exact H4 |].
    rewrite H5. cbn [assembled updated file]. now rewrite app_assoc.
Qed.

(** Three passes over [chart_A]. *)
Lemma assemble_times_counts_witness :
  series chart_A = Some (4%nat, nodes_A)
  /\ 0 <= series_index chart_A < 65536
  /\ exists ck,
       assemble_times 3 chart_A = Some (tt, ck)
       /\ series_index ck = 3.
Proof.
  assert (H : 0 <= series_index chart_A < 65536) by (cbn; lia).
  split; [reflexivity |]. split; [exact H |].
  destruct (assemble_times_counts 3 chart_A 4%nat nodes_A eq_refl H)
    as (ck & out & H1 & H2 & _).
  exists ck. split; [exact H1 |]. rewrite H2. reflexivity.
Defined.

(* ================================================================== *)
(** ** Ownership of the copies *)

Lemma calloc_cases (rt rt' : runtime) (p : option block) :
  calloc rt = (p, rt') ->
  (p = None /\ live rt' = live rt /\ next_block rt' = next_block rt)
  \/ (p = Some (next_block rt)
      /\ live rt' = next_block rt :: live rt
      /\ next_block rt' = S (next_block rt)).
Proof.
  unfold calloc.
  destruct (outcomes rt) as [| [|] rest]; intros E; injection E as <- <-; cbn; auto.
Qed.

Lemma lxw_strdup_cases (str : ptr string) (rt rt' : runtime) (p : ptr string) :
  lxw_strdup str rt = (p, rt') ->
  (p = None /\ live rt' = live rt /\ next_block rt' = next_block rt)
  \/ (exists s, str <> None
                /\ ptr_val str = Some s
                /\ p = Some (next_block rt, s)
                /\ live rt' = next_block rt :: live rt
                /\ next_block rt' = S (next_block rt)).
Proof.
  unfold lxw_strdup. destruct str as [[b s] |].
  - destruct (calloc rt) as [[b0 |] rt0] eqn:E0; intros E; injection E as <- <-;
      destruct (calloc_cases _ _ _ E0) as [(H1 & H2 & H3) | (H1 & H2 & H3)];
      try discriminate.
    + injection H1 as ->. right. exists s. repeat split; auto. discriminate.
    + left. auto.
  - intros E; injection E as <- <-. left. auto.
Qed.

(** X14: a call that returns 0 links a node that lies in a new block and owns
    its strings: each string is [NULL] or lies in a new block of its own
    and reads as the descriptor's string.  The new blocks are the only
    change to what is allocated. *)
Theorem chart_add_series_owns_copies (self self' : lxw_chart)
  (user : block * lxw_chart_series) (rt rt' : runtime)
  (Hadd : chart_add_series self (Some user) rt = Some (0, self', rt')) :
  exists head l s,
    series self = Some (head, l)
    /\ self' = set_series self (Some (head, l ++ [(next_block rt, s)]))
    /\ live rt' = rev (next_block rt :: string_blocks s) ++ live rt
    /\ NoDup (next_block rt :: string_blocks s)
    /\ Forall (fun b => (next_block rt <= b)%nat) (next_block rt :: string_blocks s)
    /\ (range (values s) = None
        \/ ptr_val (range (values s)) = ptr_val (range (values (snd user))))
    /\ (sheetname (values s) = None
        \/ ptr_val (sheetname (values s)) = ptr_val (sheetname (values (snd user)))).
Proof.
  destruct user as [b user]. unfold chart_add_series in Hadd.
  destruct (calloc rt) as [[node |] rt1] eqn:Ec; [| discriminate].
  destruct (lxw_strdup (range (values user)) rt1) as [r rt2] eqn:E1.
  destruct (lxw_strdup (sheetname (values user)) rt2) as [n rt3] eqn:E2.
  destruct (series self) as [[head l] |] eqn:Hs; [| discriminate].
  injection Hadd as <- <-.
  destruct (calloc_cases _ _ _ Ec) as [(H & _) | (H & Hl1 & Hn1)]; [discriminate |].
  injection H as ->.
  exists head, l, (mk_chart_series (mk_series_range r n)).
  split; [reflexivity |]. split; [reflexivity |].
  unfold string_blocks; cbn [values range sheetname snd].
  destruct (lxw_strdup_cases _ _ _ _ E1)
    as [(-> & Hl2 & Hn2) | (s1 & _ & Hv1 & -> & Hl2 & Hn2)];
    destruct (lxw_strdup_cases _ _ _ _ E2)
      as [(-> & Hl3 & Hn3) | (s2 & _ & Hv2 & -> & Hl3 & Hn3)];
    cbn [ptr_block ptr_val app rev];
    rewrite Hl3, ?Hn2, Hl2, ?Hn1, Hl1.
  all: repeat split; auto; repeat constructor; cbn [In]; try lia; try tauto;
    try (intros H; decompose [or] H; lia).
Qed.

(** [series_A] added to [chart_0]: the node is block 5 and its copies are
    the blocks 6 and 7. *)
Lemma chart_add_series_owns_copies_witness :
  chart_add_series chart_0 series_A runtime_0 = Some (0, chart_A, runtime_A)
  /\ exists head l s,
       series chart_0 = Some (head, l)
       /\ chart_A = set_series chart_0 (Some (head, l ++ [(5%nat, s)]))
       /\ live runtime_A = rev (5%nat :: string_blocks s) ++ live runtime_0.
Proof.
  split; [reflexivity |].
  destruct (chart_add_series_owns_copies chart_0 chart_A
              (0%nat, mk_chart_series
                        (mk_series_range (Some (1%nat, "Sheet1!$A$1:$A$3"))
                                         (Some (2%nat, "Sheet1"))))
              runtime_0 runtime_A eq_refl)
    as (head & l & s & H1 & H2 & H3 & _).
  exists head, l, s. auto.
Defined.
